(** * Runtime support for LLVM-compiled code (src/compiler_llvm/runtime_support_llvm.cc)

    A shallow embedding of the entry points that generated code calls into,
    and the properties of them that the design document states.

    The entry points are translated from runtime_support_llvm.cc.  What they
    call in headers outside that file (object.h, thread.h, runtime_support.h,
    class_linker.h, the two *_func_list.h tables) is taken through the
    interfaces declared below. *)

From Stdlib Require Import ZArith Lia List String Ascii Bool Sorted.
From stdpp Require Import base option list strings pretty gmap.

Local Open Scope Z_scope.

(** ** The managed object model (object.h, dex_file.h, object_utils.h) *)

(** The types and the accessors that runtime_support_llvm.cc uses on them.
    A C++ pointer that the source tests against NULL, or that a callee may
    return as NULL, is an [option]. *)
Class ObjectModel := {
  Klass : Type;                                  (* art::Class *)
  Object : Type;                                 (* art::Object *)
  Method : Type;                                 (* art::Method *)
  Field : Type;                                  (* art::Field *)
  jobject : Type;                                (* JNI handle *)
  Heap : Type;                                   (* what lives behind the collaborators' interfaces *)
  Method_eq_dec :: EqDecision Method;
  Method_countable :: Countable Method;
  GetClass : Object -> Klass;                    (* Object::GetClass *)
  IsAssignableFrom : Klass -> Klass -> bool;     (* dest->IsAssignableFrom(src) *)
  GetComponentType : Klass -> option Klass;      (* Class::GetComponentType *)
  PrettyDescriptor : Klass -> string;
  FindSystemClass : string -> Klass;             (* the class a descriptor names *)
  kDexNoIndex16 : Z;                             (* DexFile::kDexNoIndex16 *)
  CatchHandlerIterator : Method -> Z -> list Z;  (* handler type indices for a dex pc, in table order *)
  GetDexCacheResolvedType : Heap -> Method -> Z -> option Klass;
  GetTypeDescriptorFromTypeIdx : Method -> Z -> string;
  Set32 : Field -> option Object -> Z -> Heap -> Heap;
  Set64 : Field -> option Object -> Z -> Heap -> Heap;
  SetObj : Field -> option Object -> option Object -> Heap -> Heap;
  Get32 : Field -> option Object -> Heap -> Z;
  Get64 : Field -> option Object -> Heap -> Z;
  GetObj : Field -> option Object -> Heap -> option Object;
  TraceMethodUnwindFromCode : Heap -> Heap;      (* trace.h *)
  sizeof_Object_ptr : Z;                         (* size of an object pointer *)
}.

(** enum InvokeType: the enumerators runtime_support_llvm.cc names. *)
Inductive InvokeType := kInterface | kVirtual | kSuper.

(** ** Formatting (StringPrintf, as used by Thread::ThrowNewExceptionF) *)

Inductive FormatArg :=
| ArgStr (s : string)
| ArgInt (n : Z).

(** The conversions the source's format strings use: %s, %d and %zd. *)
Fixpoint StringPrintf (fmt : string) (args : list FormatArg) : string :=
  match fmt with
  | EmptyString => EmptyString
  | String "%" (String "s" rest) =>
      match args with
      | ArgStr s :: args' => s +:+ StringPrintf rest args'
      | ArgInt n :: args' => pretty n +:+ StringPrintf rest args'
      | [] => StringPrintf rest []
      end
  | String "%" (String "d" rest) =>
      match args with
      | ArgInt n :: args' => pretty n +:+ StringPrintf rest args'
      | ArgStr s :: args' => s +:+ StringPrintf rest args'
      | [] => StringPrintf rest []
      end
  | String "%" (String "z" (String "d" rest)) =>
      match args with
      | ArgInt n :: args' => pretty n +:+ StringPrintf rest args'
      | ArgStr s :: args' => s +:+ StringPrintf rest args'
      | [] => StringPrintf rest []
      end
  | String c rest => String c (StringPrintf rest args)
  end.

(** [contains needle hay]: [needle] occurs in [hay]. *)
Definition contains (needle hay : string) : Prop :=
  exists pre post, hay = pre +:+ needle +:+ post.

(** ** Threads and the state of the runtime *)

Section State.
Context `{OM : ObjectModel}.

(** What the pending-exception slot can hold: an exception object that a
    throw operation constructed from a class descriptor and a message, or an
    object that managed code handed to the throw operation. *)
Inductive Throwable :=
| NewException (descriptor : string) (msg : option string)
| ThrownObject (o : Object).

Definition Throwable_GetClass (e : Throwable) : Klass :=
  match e with
  | NewException d _ => FindSystemClass d
  | ThrownObject o => GetClass o
  end.

(** Modelled from the spec: the part of art::Thread (thread.h) that this
    file reads and writes, a single-slot pending exception and the stack
    bounds with their current and default end. *)
Record Thread := mkThread {
  exception_ : option Throwable;   (* the pending-exception slot *)
  stack_begin_ : Z;                (* hard limit of the stack *)
  stack_end_ : Z;                  (* soft limit, checked for overflow *)
  default_stack_end_ : Z;          (* soft limit during regular execution *)
  stack_size_ : Z;
}.

(** What an observer of the thread API sees happen, oldest first. *)
Inductive Event :=
| EvLogWarning (msg : string)
| EvStackEnd (new_end : Z)
| EvConstruct (descriptor : string).

Record World := mkWorld {
  self : Thread;                    (* Thread::Current() *)
  heap : Heap;
  resolved_fields_ : gmap (Method * Z) Field;    (* per-caller resolution cache *)
  resolved_methods_ : gmap (Method * Z) Method;
  method_tracing_active_ : bool;    (* Runtime::IsMethodTracingActive *)
  default_stack_size_ : Z;          (* Runtime::GetDefaultStackSize *)
  events : list Event;
}.

(** The result of running an entry point: it returns, the process aborts
    (LOG(FATAL)), or it dereferences a null pointer. *)
Inductive Result (A : Type) :=
| Returns (a : A) (w : World)
| Aborts (msg : string)
| Faults.
Arguments Returns {A} a w.
Arguments Aborts {A} msg.
Arguments Faults {A}.

Definition M (A : Type) : Type := World -> Result A.

Definition ret {A} (a : A) : M A := fun w => Returns a w.

Definition bind {A B} (c : M A) (k : A -> M B) : M B :=
  fun w => match c w with
           | Returns a w' => k a w'
           | Aborts msg => Aborts msg
           | Faults => Faults
           end.

Definition get : M World := fun w => Returns w w.
Definition modify (f : World -> World) : M unit := fun w => Returns tt (f w).
Definition LOG_FATAL {A} (msg : string) : M A := fun _ => Aborts msg.
Definition null_dereference {A} : M A := fun _ => Faults.

(** [p->...] on a pointer that may be NULL. *)
Definition deref {A} (p : option A) : M A :=
  match p with
  | Some a => ret a
  | None => null_dereference
  end.

Definition set_self (f : Thread -> Thread) (w : World) : World :=
  mkWorld (f (self w)) (heap w) (resolved_fields_ w) (resolved_methods_ w)
          (method_tracing_active_ w) (default_stack_size_ w) (events w).

Definition set_heap (f : Heap -> Heap) (w : World) : World :=
  mkWorld (self w) (f (heap w)) (resolved_fields_ w) (resolved_methods_ w)
          (method_tracing_active_ w) (default_stack_size_ w) (events w).

Definition emit (e : Event) (w : World) : World :=
  mkWorld (self w) (heap w) (resolved_fields_ w) (resolved_methods_ w)
          (method_tracing_active_ w) (default_stack_size_ w) (events w ++ [e]).

Definition LOG_WARNING (msg : string) : M unit := modify (emit (EvLogWarning msg)).

End State.

Arguments Returns {OM A} a w.
Arguments Aborts {OM A} msg.
Arguments Faults {OM A}.

Declare Scope rt_scope.
Delimit Scope rt_scope with rt.
Notation "'let*' x ':=' c 'in' k" := (bind c (fun x => k))
  (at level 10, x name, c at level 100, k at level 200) : rt_scope.
Notation "c ';;' k" := (bind c (fun _ => k))
  (at level 100, k at level 200, right associativity) : rt_scope.
Local Open Scope rt_scope.

(** ** The thread API (thread.h) *)

Section ThreadAPI.
Context `{OM : ObjectModel}.

Definition with_exception (e : option Throwable) (t : Thread) : Thread :=
  mkThread e (stack_begin_ t) (stack_end_ t) (default_stack_end_ t) (stack_size_ t).

Definition with_stack_end (new_end : Z) (t : Thread) : Thread :=
  mkThread (exception_ t) (stack_begin_ t) new_end (default_stack_end_ t) (stack_size_ t).

Definition IsExceptionPending (t : Thread) : bool :=
  match exception_ t with
  | Some _ => true
  | None => false
  end.

Definition GetException (t : Thread) : option Throwable := exception_ t.

(** Modelled from the spec: Thread::SetException (thread.h is not part of
    this file).  It installs the object into the pending-exception slot,
    replacing any previous value. *)
Definition SetException (new_exception : Throwable) : M unit :=
  modify (set_self (with_exception (Some new_exception))).

(** Modelled from the spec: Thread::ThrowNewException.  It constructs a typed
    exception object and installs it into the pending-exception slot,
    replacing any previous value. *)
Definition ThrowNewException (exception_class_descriptor : string) (msg : option string)
  : M unit :=
  modify (emit (EvConstruct exception_class_descriptor)) ;;
  SetException (NewException exception_class_descriptor msg).

(** Modelled from the spec: Thread::ThrowNewExceptionF, the same with a
    formatted message. *)
Definition ThrowNewExceptionF (exception_class_descriptor fmt : string)
  (args : list FormatArg) : M unit :=
  ThrowNewException exception_class_descriptor (Some (StringPrintf fmt args)).

(** Modelled from the spec: Thread::SetStackEndForStackOverflow.  It widens
    the usable stack region by moving the soft limit to the hard limit. *)
Definition SetStackEndForStackOverflow : M unit :=
  let* w := get in
  let new_end := stack_begin_ (self w) in
  modify (set_self (with_stack_end new_end)) ;;
  modify (emit (EvStackEnd new_end)).

(** Modelled from the spec: Thread::ResetDefaultStackEnd.  It puts the soft
    limit back to its default. *)
Definition ResetDefaultStackEnd : M unit :=
  let* w := get in
  let new_end := default_stack_end_ (self w) in
  modify (set_self (with_stack_end new_end)) ;;
  modify (emit (EvStackEnd new_end)).

Definition GetStackSize (t : Thread) : Z := stack_size_ t.

End ThreadAPI.

(** ** Field and method resolution (runtime_support.h), handle decoding *)

Class RuntimeSupport `{OM : ObjectModel} := {
  (* (field_idx, referrer, is_primitive, is_set, expected_size) *)
  FindFieldFast : Z -> Method -> bool -> bool -> Z -> World -> option Field;
  (* (field_idx, referrer, self, is_static, is_primitive, is_set, expected_size);
     self is the current thread of the world *)
  FindFieldFromCode : Z -> Method -> bool -> bool -> bool -> Z -> M (option Field);
  (* (method_idx, this_object, caller_method, access_check, type) *)
  FindMethodFast : Z -> option Object -> Method -> bool -> InvokeType -> World -> option Method;
  FindMethodFromCode : Z -> option Object -> Method -> bool -> InvokeType -> M (option Method);
  (* Thread::DecodeJObject *)
  DecodeJObject : Thread -> jobject -> M (option Object);
}.

(** Modelled from the spec: the services of full resolution (class_linker.h):
    what an index of a caller's constant pool resolves to, the permission
    checks, and the dispatch against the receiver's runtime type. *)
Class ClassLinker `{OM : ObjectModel} := {
  ResolveField : Method -> Z -> option Field;
  ResolveMethod : Method -> Z -> option Method;
  (* (field, referrer, is_static, is_primitive, is_set, expected_size) *)
  CheckFieldAccess : Field -> Method -> bool -> bool -> bool -> Z -> bool;
  (* (resolved method, referrer, access_check, type) *)
  CheckMethodAccess : Method -> Method -> bool -> InvokeType -> bool;
  (* the target of a dispatch kind for a receiver and a referring method *)
  FindDispatchTarget : InvokeType -> Method -> option Object -> Method -> option Method;
  (* descriptor of the exception that a failed resolution raises *)
  ResolutionError : Method -> Z -> string;
}.

Definition KB : Z := 1024.
Definition sizeof_uint32_t : Z := 4.
Definition sizeof_uint64_t : Z := 8.

(** Conversion to int32_t. *)
Definition to_int32 (z : Z) : Z := (z + 2 ^ 31) mod 2 ^ 32 - 2 ^ 31.

(** ** Entry points: exceptions *)

(** DCHECKs are debug-build assertions; they state what the caller has
    established and are not part of the behaviour modelled here. *)

Section Exception.
Context `{OM : ObjectModel}.

Definition art_is_exception_pending_from_code : M bool :=
  let* w := get in ret (IsExceptionPending (self w)).

Definition art_throw_div_zero_from_code : M unit :=
  ThrowNewException "Ljava/lang/ArithmeticException;" (Some "divide by zero"%string).

Definition art_throw_array_bounds_from_code (length index : Z) : M unit :=
  ThrowNewExceptionF "Ljava/lang/ArrayIndexOutOfBoundsException;"
                     "length=%d; index=%d" [ArgInt length; ArgInt index].

Definition art_throw_null_pointer_exception_from_code : M unit :=
  ThrowNewException "Ljava/lang/NullPointerException;" None.

Definition art_throw_stack_overflow_from_code : M unit :=
  let* w := get in
  (if method_tracing_active_ w
   then modify (set_heap TraceMethodUnwindFromCode)
   else ret tt) ;;
  SetStackEndForStackOverflow ;;
  let* w := get in
  ThrowNewExceptionF "Ljava/lang/StackOverflowError;"
      "stack size %zdkb; default stack size: %zdkb"
      [ArgInt (GetStackSize (self w) / KB); ArgInt (default_stack_size_ w / KB)] ;;
  ResetDefaultStackEnd.

Definition art_throw_exception_from_code (exception : option Object) : M unit :=
  match exception with
  | None =>
      ThrowNewException "Ljava/lang/NullPointerException;"
                        (Some "throw with null exception"%string)
  | Some exception => SetException (ThrownObject exception)
  end.

(** The body of the for loop of art_find_catch_block_from_code: [it] is what
    the CatchHandlerIterator still has to yield, [iter_index] the counter. *)
Fixpoint find_catch_block_loop (current_method : Method) (exception_type : Klass)
  (it : list Z) (iter_index : Z) : M Z :=
  match it with
  | [] => ret (-1)
  | iter_type_idx :: it' =>
      if iter_type_idx =? kDexNoIndex16 then ret iter_index
      else
        let* w := get in
        match GetDexCacheResolvedType (heap w) current_method iter_type_idx with
        | None =>
            LOG_WARNING ("Unresolved exception class when finding catch block: "
                         +:+ GetTypeDescriptorFromTypeIdx current_method iter_type_idx) ;;
            find_catch_block_loop current_method exception_type it' (to_int32 (iter_index + 1))
        | Some iter_exception_type =>
            if IsAssignableFrom iter_exception_type exception_type then ret iter_index
            else find_catch_block_loop current_method exception_type it'
                                       (to_int32 (iter_index + 1))
        end
  end.

Definition art_find_catch_block_from_code (current_method : Method) (dex_pc : Z) : M Z :=
  let* w := get in
  let* exception := deref (GetException (self w)) in
  let exception_type := Throwable_GetClass exception in
  find_catch_block_loop current_method exception_type
                        (CatchHandlerIterator current_method dex_pc) 0.

End Exception.

(** ** Entry points: method and field resolution *)

Section Resolution.
Context `{OM : ObjectModel} `{RS : !RuntimeSupport}.

Definition CHECK (cond : bool) (what : string) : M unit :=
  if cond then ret tt else LOG_FATAL ("Check failed: " +:+ what).

Definition FindMethodHelper (method_idx : Z) (this_object : option Object)
  (caller_method : Method) (access_check : bool) (type : InvokeType) : M (option Method) :=
  let* w := get in
  match FindMethodFast method_idx this_object caller_method access_check type w with
  | Some method => ret (Some method)
  | None =>
      let* method := FindMethodFromCode method_idx this_object caller_method
                                        access_check type in
      match method with
      | None =>
          let* w := get in
          CHECK (IsExceptionPending (self w)) "Thread::Current()->IsExceptionPending()" ;;
          ret None
      | Some method => ret (Some method)
      end
  end.

Definition art_find_interface_method_from_code (method_idx : Z)
  (this_object : option Object) (referrer : Method) : M (option Method) :=
  FindMethodHelper method_idx this_object referrer true kInterface.

Definition art_find_virtual_method_from_code (method_idx : Z)
  (this_object : option Object) (referrer : Method) : M (option Method) :=
  FindMethodHelper method_idx this_object referrer true kVirtual.

Definition art_find_super_method_from_code (method_idx : Z)
  (this_object : option Object) (referrer : Method) : M (option Method) :=
  FindMethodHelper method_idx this_object referrer true kSuper.

Definition art_set32_static_from_code (field_idx : Z) (referrer : Method) (new_value : Z)
  : M Z :=
  let* w := get in
  match FindFieldFast field_idx referrer true true sizeof_uint32_t w with
  | Some field => modify (set_heap (Set32 field None new_value)) ;; ret 0
  | None =>
      let* field := FindFieldFromCode field_idx referrer true true true sizeof_uint32_t in
      match field with
      | Some field => modify (set_heap (Set32 field None new_value)) ;; ret 0
      | None => ret (-1)
      end
  end.

Definition art_set64_static_from_code (field_idx : Z) (referrer : Method) (new_value : Z)
  : M Z :=
  let* w := get in
  match FindFieldFast field_idx referrer true true sizeof_uint64_t w with
  | Some field => modify (set_heap (Set64 field None new_value)) ;; ret 0
  | None =>
      let* field := FindFieldFromCode field_idx referrer true true true sizeof_uint64_t in
      match field with
      | Some field => modify (set_heap (Set64 field None new_value)) ;; ret 0
      | None => ret (-1)
      end
  end.

Definition art_set_obj_static_from_code (field_idx : Z) (referrer : Method)
  (new_value : option Object) : M Z :=
  let* w := get in
  match FindFieldFast field_idx referrer false true sizeof_Object_ptr w with
  | Some field => modify (set_heap (SetObj field None new_value)) ;; ret 0
  | None =>
      let* field := FindFieldFromCode field_idx referrer true false true sizeof_Object_ptr in
      match field with
      | Some field => modify (set_heap (SetObj field None new_value)) ;; ret 0
      | None => ret (-1)
      end
  end.

Definition art_get32_static_from_code (field_idx : Z) (referrer : Method) : M Z :=
  let* w := get in
  match FindFieldFast field_idx referrer true false sizeof_uint32_t w with
  | Some field => ret (Get32 field None (heap w))
  | None =>
      let* field := FindFieldFromCode field_idx referrer true true false sizeof_uint32_t in
      match field with
      | Some field => let* w := get in ret (Get32 field None (heap w))
      | None => ret 0
      end
  end.

Definition art_get64_static_from_code (field_idx : Z) (referrer : Method) : M Z :=
  let* w := get in
  match FindFieldFast field_idx referrer true false sizeof_uint64_t w with
  | Some field => ret (Get64 field None (heap w))
  | None =>
      let* field := FindFieldFromCode field_idx referrer true true false sizeof_uint64_t in
      match field with
      | Some field => let* w := get in ret (Get64 field None (heap w))
      | None => ret 0
      end
  end.

Definition art_get_obj_static_from_code (field_idx : Z) (referrer : Method)
  : M (option Object) :=
  let* w := get in
  match FindFieldFast field_idx referrer false false sizeof_Object_ptr w with
  | Some field => ret (GetObj field None (heap w))
  | None =>
      let* field := FindFieldFromCode field_idx referrer true false false sizeof_Object_ptr in
      match field with
      | Some field => let* w := get in ret (GetObj field None (heap w))
      | None => ret None
      end
  end.

Definition art_set32_instance_from_code (field_idx : Z) (referrer : Method)
  (obj : option Object) (new_value : Z) : M Z :=
  let* w := get in
  match FindFieldFast field_idx referrer true true sizeof_uint32_t w with
  | Some field => modify (set_heap (Set32 field obj new_value)) ;; ret 0
  | None =>
      let* field := FindFieldFromCode field_idx referrer false true true sizeof_uint32_t in
      match field with
      | Some field => modify (set_heap (Set32 field obj new_value)) ;; ret 0
      | None => ret (-1)
      end
  end.

Definition art_set64_instance_from_code (field_idx : Z) (referrer : Method)
  (obj : option Object) (new_value : Z) : M Z :=
  let* w := get in
  match FindFieldFast field_idx referrer true true sizeof_uint64_t w with
  | Some field => modify (set_heap (Set64 field obj new_value)) ;; ret 0
  | None =>
      let* field := FindFieldFromCode field_idx referrer false true true sizeof_uint64_t in
      match field with
      | Some field => modify (set_heap (Set64 field obj new_value)) ;; ret 0
      | None => ret (-1)
      end
  end.

Definition art_set_obj_instance_from_code (field_idx : Z) (referrer : Method)
  (obj : option Object) (new_value : option Object) : M Z :=
  let* w := get in
  match FindFieldFast field_idx referrer false true sizeof_Object_ptr w with
  | Some field => modify (set_heap (SetObj field obj new_value)) ;; ret 0
  | None =>
      let* field := FindFieldFromCode field_idx referrer false false true sizeof_Object_ptr in
      match field with
      | Some field => modify (set_heap (SetObj field obj new_value)) ;; ret 0
      | None => ret (-1)
      end
  end.

Definition art_get32_instance_from_code (field_idx : Z) (referrer : Method)
  (obj : option Object) : M Z :=
  let* w := get in
  match FindFieldFast field_idx referrer true false sizeof_uint32_t w with
  | Some field => ret (Get32 field obj (heap w))
  | None =>
      let* field := FindFieldFromCode field_idx referrer false true false sizeof_uint32_t in
      match field with
      | Some field => let* w := get in ret (Get32 field obj (heap w))
      | None => ret 0
      end
  end.

Definition art_get64_instance_from_code (field_idx : Z) (referrer : Method)
  (obj : option Object) : M Z :=
  let* w := get in
  match FindFieldFast field_idx referrer true false sizeof_uint64_t w with
  | Some field => ret (Get64 field obj (heap w))
  | None =>
      let* field := FindFieldFromCode field_idx referrer false true false sizeof_uint64_t in
      match field with
      | Some field => let* w := get in ret (Get64 field obj (heap w))
      | None => ret 0
      end
  end.

Definition art_get_obj_instance_from_code (field_idx : Z) (referrer : Method)
  (obj : option Object) : M (option Object) :=
  let* w := get in
  match FindFieldFast field_idx referrer false false sizeof_Object_ptr w with
  | Some field => ret (GetObj field obj (heap w))
  | None =>
      let* field := FindFieldFromCode field_idx referrer false false false sizeof_Object_ptr in
      match field with
      | Some field => let* w := get in ret (GetObj field obj (heap w))
      | None => ret None
      end
  end.

Definition art_decode_jobject_in_thread (thread : Thread) (obj : jobject)
  : M (option Object) :=
  if IsExceptionPending thread then ret None
  else DecodeJObject thread obj.

End Resolution.

(** ** Entry points: type checking, in the nature of casting *)

Section TypeCheck.
Context `{OM : ObjectModel}.

Definition art_is_assignable_from_code (dest_type src_type : Klass) : M Z :=
  ret (if IsAssignableFrom dest_type src_type then 1 else 0).

Definition art_check_cast_from_code (dest_type src_type : Klass) : M unit :=
  if negb (IsAssignableFrom dest_type src_type) then
    ThrowNewExceptionF "Ljava/lang/ClassCastException;"
        "%s cannot be cast to %s"
        [ArgStr (PrettyDescriptor dest_type); ArgStr (PrettyDescriptor src_type)]
  else ret tt.

Definition art_check_put_array_element_from_code (element array : option Object) : M unit :=
  match element with
  | None => ret tt
  | Some element =>
      let* array := deref array in
      let array_class := GetClass array in
      let* component_type := deref (GetComponentType array_class) in
      let element_class := GetClass element in
      if negb (IsAssignableFrom component_type element_class) then
        ThrowNewExceptionF "Ljava/lang/ArrayStoreException;"
            "%s cannot be stored in an array of type %s"
            [ArgStr (PrettyDescriptor element_class); ArgStr (PrettyDescriptor array_class)]
      else ret tt
  end.

End TypeCheck.

(** ** Runtime support function lookup callback *)

(** A [string] holds the characters of a C string before its terminating
    NUL; the terminator compares below every character. *)
Definition byte (c : ascii) : Z := Z.of_N (N_of_ascii c).

Fixpoint strcmp (lhs rhs : string) : Z :=
  match lhs, rhs with
  | EmptyString, EmptyString => 0
  | EmptyString, String _ _ => -1
  | String _ _, EmptyString => 1
  | String a lhs', String b rhs' =>
      if byte a =? byte b then strcmp lhs' rhs' else byte a - byte b
  end.

Definition strlen (s : string) : nat := String.length s.

Definition CStringComparator (lhs rhs : string) : bool := strcmp lhs rhs <? 0.

(** std::lower_bound over [first, first + len) of an array: positions are
    offsets from the start of the array.  The loop runs at most [len] times,
    which is what [fuel] counts. *)
Fixpoint lower_bound_loop {A B} (arr : list A) (value : B) (comp : A -> B -> bool)
  (fuel first len : nat) : nat :=
  match fuel with
  | O => first
  | S fuel' =>
      if (0 <? len)%nat then
        let half := (len / 2)%nat in
        let middle := (first + half)%nat in
        match arr !! middle with
        | Some x =>
            if comp x value
            then lower_bound_loop arr value comp fuel' (middle + 1)%nat (len - half - 1)%nat
            else lower_bound_loop arr value comp fuel' first half
        | None => first
        end
      else first
  end.

Definition lower_bound {A B} (arr : list A) (value : B) (comp : A -> B -> bool) : nat :=
  lower_bound_loop arr value comp (length arr) 0%nat (length arr).

Definition NULL : Z := 0.

(** [COMPILER_RUNTIME_FUNC_LIST] stands for the list that
    compiler_runtime_func_list.h expands: each name with the address of the
    function of that name. *)
Definition art_find_compiler_runtime_func (COMPILER_RUNTIME_FUNC_LIST : list (string * Z))
  (name : string) : Z :=
  let names := map fst COMPILER_RUNTIME_FUNC_LIST in
  let funcs := map snd COMPILER_RUNTIME_FUNC_LIST in
  let num_entries := length names in
  let name_lbound_ptr := lower_bound names name CStringComparator in
  match names !! name_lbound_ptr, funcs !! name_lbound_ptr with
  | Some found, Some func =>
      if (name_lbound_ptr <? num_entries)%nat && (strcmp found name =? 0)
      then func else NULL
  | _, _ => NULL
  end.

Record func_entry_t := mk_func_entry {
  entry_name : string;
  entry_name_len : nat;
  entry_addr : Z;
}.

(** The macro DEFINE_ENTRY(ID, NAME) of art_find_runtime_support_func. *)
Definition DEFINE_ENTRY (entry : string * Z) : func_entry_t :=
  mk_func_entry (fst entry) (strlen (fst entry)) (snd entry).

Section Lookup.
Context `{OM : ObjectModel}.

Fixpoint runtime_support_func_loop (tab : list func_entry_t) (name : string) (name_len : nat)
  : M Z :=
  match tab with
  | [] => LOG_FATAL ("Error: Can't find symbol " +:+ name)
  | entry :: tab' =>
      if (name_len =? entry_name_len entry)%nat && (strcmp name (entry_name entry) =? 0)
      then ret (entry_addr entry)
      else runtime_support_func_loop tab' name name_len
  end.

(** [RUNTIME_SUPPORT_FUNC_LIST] stands for the list that
    runtime_support_func_list.h expands. *)
Definition art_find_runtime_support_func
  (COMPILER_RUNTIME_FUNC_LIST RUNTIME_SUPPORT_FUNC_LIST : list (string * Z))
  (context : Z) (name : string) : M Z :=
  let tab := map DEFINE_ENTRY RUNTIME_SUPPORT_FUNC_LIST in
  let result := art_find_compiler_runtime_func COMPILER_RUNTIME_FUNC_LIST name in
  if negb (result =? NULL) then ret result
  else
    let name_len := strlen name in
    runtime_support_func_loop tab name name_len.

End Lookup.

(** ** The two resolution paths over the per-caller cache *)

Section CachedResolution.
Context `{OM : ObjectModel} `{CL : !ClassLinker}.

Definition cache_field (key : Method * Z) (f : Field) (w : World) : World :=
  mkWorld (self w) (heap w) (<[key := f]> (resolved_fields_ w)) (resolved_methods_ w)
          (method_tracing_active_ w) (default_stack_size_ w) (events w).

Definition cache_method (key : Method * Z) (m : Method) (w : World) : World :=
  mkWorld (self w) (heap w) (resolved_fields_ w) (<[key := m]> (resolved_methods_ w))
          (method_tracing_active_ w) (default_stack_size_ w) (events w).

(** Modelled from the spec: FindFieldFast (runtime_support.h is not part of
    this file).  The fast path attempts resolution using only information
    already cached for the calling method, with no side effect on a miss. *)
Definition cached_FindFieldFast (field_idx : Z) (referrer : Method)
  (is_primitive is_set : bool) (expected_size : Z) (w : World) : option Field :=
  resolved_fields_ w !! (referrer, field_idx).

(** Modelled from the spec: FindFieldFromCode.  The slow path performs full
    resolution with its permission checks, caches the result for future
    fast-path hits, and on failure installs a pending exception. *)
Definition cached_FindFieldFromCode (field_idx : Z) (referrer : Method)
  (is_static is_primitive is_set : bool) (expected_size : Z) : M (option Field) :=
  match ResolveField referrer field_idx with
  | Some field =>
      if CheckFieldAccess field referrer is_static is_primitive is_set expected_size then
        modify (cache_field (referrer, field_idx) field) ;; ret (Some field)
      else
        ThrowNewException (ResolutionError referrer field_idx) None ;; ret None
  | None =>
      ThrowNewException (ResolutionError referrer field_idx) None ;; ret None
  end.

(** Modelled from the spec: FindMethodFast.  A fast lookup using cached
    information, then the dispatch against the receiver's runtime type or the
    referring method's supertype. *)
Definition cached_FindMethodFast (method_idx : Z) (this_object : option Object)
  (caller_method : Method) (access_check : bool) (type : InvokeType) (w : World)
  : option Method :=
  match resolved_methods_ w !! (caller_method, method_idx) with
  | Some resolved => FindDispatchTarget type resolved this_object caller_method
  | None => None
  end.

(** Modelled from the spec: FindMethodFromCode.  Full resolution with access
    checking, caching, then the same dispatch; failure leaves a pending
    exception and returns null. *)
Definition cached_FindMethodFromCode (method_idx : Z) (this_object : option Object)
  (caller_method : Method) (access_check : bool) (type : InvokeType) : M (option Method) :=
  match ResolveMethod caller_method method_idx with
  | Some resolved =>
      if CheckMethodAccess resolved caller_method access_check type then
        modify (cache_method (caller_method, method_idx) resolved) ;;
        match FindDispatchTarget type resolved this_object caller_method with
        | Some method => ret (Some method)
        | None =>
            ThrowNewException (ResolutionError caller_method method_idx) None ;; ret None
        end
      else
        ThrowNewException (ResolutionError caller_method method_idx) None ;; ret None
  | None =>
      ThrowNewException (ResolutionError caller_method method_idx) None ;; ret None
  end.

(** The runtime support whose resolution is the cached one; handle decoding
    is left to [decode]. *)
Definition cached_support (decode : Thread -> jobject -> M (option Object))
  : RuntimeSupport :=
  {| FindFieldFast := cached_FindFieldFast;
     FindFieldFromCode := cached_FindFieldFromCode;
     FindMethodFast := cached_FindMethodFast;
     FindMethodFromCode := cached_FindMethodFromCode;
     DecodeJObject := decode |}.

(** The invariant of the resolution cache: what is cached for an index of a
    caller is what full resolution finds for it. *)
Definition cache_consistent (w : World) : Prop :=
  (forall referrer field_idx field,
      resolved_fields_ w !! (referrer, field_idx) = Some field ->
      ResolveField referrer field_idx = Some field) /\
  (forall caller method_idx method,
      resolved_methods_ w !! (caller, method_idx) = Some method ->
      ResolveMethod caller method_idx = Some method).

End CachedResolution.

(** ** Specification-side definitions *)

Section CatchSearchSpec.
Context `{OM : ObjectModel}.

(** An exception-table entry matches when its handler type is the catch-all
    sentinel, or its declared type is resolved and assignable from the type
    of the pending exception. *)
Definition handler_matches (h : Heap) (m : Method) (exception_type : Klass) (type_idx : Z)
  : bool :=
  (type_idx =? kDexNoIndex16) ||
  match GetDexCacheResolvedType h m type_idx with
  | Some declared => IsAssignableFrom declared exception_type
  | None => false
  end.

(** An entry that names a type which the dex cache has not resolved. *)
Definition handler_unresolved (h : Heap) (m : Method) (type_idx : Z) : bool :=
  negb (type_idx =? kDexNoIndex16) &&
  match GetDexCacheResolvedType h m type_idx with
  | Some _ => false
  | None => true
  end.

Definition unresolved_warning (m : Method) (type_idx : Z) : Event :=
  EvLogWarning ("Unresolved exception class when finding catch block: "
                +:+ GetTypeDescriptorFromTypeIdx m type_idx).

(** The warnings that scanning the entries [scanned] logs. *)
Definition scan_warnings (h : Heap) (m : Method) (scanned : list Z) : list Event :=
  map (unresolved_warning m) (filter (fun idx => handler_unresolved h m idx = true) scanned).

Definition log_all (es : list Event) (w : World) : World :=
  mkWorld (self w) (heap w) (resolved_fields_ w) (resolved_methods_ w)
          (method_tracing_active_ w) (default_stack_size_ w) (events w ++ es).

End CatchSearchSpec.

Section FieldAccessSpec.
Context `{OM : ObjectModel}.

(** The status protocol of a write entry point [op] whose fast path is
    [fast], slow path [slow] and typed write [store]. *)
Definition write_entry_point (op : M Z) (fast : World -> option Field)
  (slow : M (option Field)) (store : Field -> Heap -> Heap) : Prop :=
  forall w,
    (forall f, fast w = Some f -> op w = Returns 0 (set_heap (store f) w)) /\
    (forall f w1, fast w = None -> slow w = Returns (Some f) w1 ->
                  op w = Returns 0 (set_heap (store f) w1)) /\
    (forall w1, fast w = None -> slow w = Returns None w1 ->
                exists r, op w = Returns r w1 /\ r <> 0 /\
                          IsExceptionPending (self w1) = true) /\
    (forall w', op w = Returns 0 w' ->
                (exists f, fast w = Some f) \/
                (exists f w1, fast w = None /\ slow w = Returns (Some f) w1)).

(** The status protocol of a read entry point [op] with typed read [load]
    and failure sentinel [zero]. *)
Definition read_entry_point {A} (op : M A) (fast : World -> option Field)
  (slow : M (option Field)) (load : Field -> Heap -> A) (zero : A) : Prop :=
  forall w,
    (forall f, fast w = Some f -> op w = Returns (load f (heap w)) w) /\
    (forall f w1, fast w = None -> slow w = Returns (Some f) w1 ->
                  op w = Returns (load f (heap w1)) w1) /\
    (forall w1, fast w = None -> slow w = Returns None w1 ->
                op w = Returns zero w1 /\ IsExceptionPending (self w1) = true).

End FieldAccessSpec.

(** The low-level helper table is sorted by name. *)
Definition names_sorted (names : list string) : Prop :=
  StronglySorted (fun a b => strcmp a b <= 0) names.

(** What std::lower_bound requires of the range: the elements that compare
    below [value] come first. *)
Definition partitioned {A B} (arr : list A) (value : B) (comp : A -> B -> bool) : Prop :=
  forall i j a b, (i <= j)%nat -> arr !! i = Some a -> arr !! j = Some b ->
                  comp b value = true -> comp a value = true.

(** ** A small concrete runtime *)

Module Demo.

Inductive DemoClass :=
| JavaObject | JavaString | JavaThrowable | JavaArithmeticException
| ObjectArray | StringArray.

Definition demo_class_eqb (a b : DemoClass) : bool :=
  match a, b with
  | JavaObject, JavaObject | JavaString, JavaString | JavaThrowable, JavaThrowable
  | JavaArithmeticException, JavaArithmeticException
  | ObjectArray, ObjectArray | StringArray, StringArray => true
  | _, _ => false
  end.

Definition demo_assignable (dest src : DemoClass) : bool :=
  demo_class_eqb dest src ||
  match dest, src with
  | JavaObject, _ => true
  | JavaThrowable, JavaArithmeticException => true
  | ObjectArray, StringArray => true
  | _, _ => false
  end.

Definition demo_component (c : DemoClass) : option DemoClass :=
  match c with
  | ObjectArray => Some JavaObject
  | StringArray => Some JavaString
  | _ => None
  end.

Definition demo_descriptor (c : DemoClass) : string :=
  match c with
  | JavaObject => "java.lang.Object"
  | JavaString => "java.lang.String"
  | JavaThrowable => "java.lang.Throwable"
  | JavaArithmeticException => "java.lang.ArithmeticException"
  | ObjectArray => "java.lang.Object[]"
  | StringArray => "java.lang.String[]"
  end.

Definition demo_system_class (d : string) : DemoClass :=
  if String.eqb d "Ljava/lang/ArithmeticException;" then JavaArithmeticException
  else JavaThrowable.

(** At every dex pc, method 0 has an entry that declares type 7 followed by
    a catch-all entry, method 1 has entries that declare types 9, 8 and 7,
    and the other methods have none.  Type 7 is java.lang.String, type 8 is
    java.lang.Throwable, and no other type index is resolved. *)
Definition demo_handlers (m : nat) (dex_pc : Z) : list Z :=
  match m with
  | O => [7; 65535]
  | 1%nat => [9; 8; 7]
  | _ => []
  end.

Definition demo_resolved_type (h : gmap nat Z) (m : nat) (type_idx : Z) : option DemoClass :=
  if type_idx =? 7 then Some JavaString
  else if type_idx =? 8 then Some JavaThrowable
  else None.

#[export] Instance demo_model : ObjectModel := {|
  Klass := DemoClass;
  Object := DemoClass * nat;
  Method := nat;
  Field := nat;
  jobject := nat;
  Heap := gmap nat Z;
  GetClass := fst;
  IsAssignableFrom := demo_assignable;
  GetComponentType := demo_component;
  PrettyDescriptor := demo_descriptor;
  FindSystemClass := demo_system_class;
  kDexNoIndex16 := 65535;
  CatchHandlerIterator := demo_handlers;
  GetDexCacheResolvedType := demo_resolved_type;
  GetTypeDescriptorFromTypeIdx := fun _ idx => pretty idx;
  Set32 := fun f _ v h => <[f := v]> h;
  Set64 := fun f _ v h => <[f := v]> h;
  SetObj := fun f _ _ h => h;
  Get32 := fun f _ h => default 0 (h !! f);
  Get64 := fun f _ h => default 0 (h !! f);
  GetObj := fun _ _ _ => None;
  TraceMethodUnwindFromCode := fun h => h;
  sizeof_Object_ptr := 4;
|}.

(** Index 1 of every caller names field 10 and method 20; nothing else
    resolves.  Dispatch finds the resolved method itself when there is a
    receiver. *)
#[export] Instance demo_linker : ClassLinker := {|
  ResolveField := fun _ idx => if idx =? 1 then Some 10%nat else None;
  ResolveMethod := fun _ idx => if idx =? 1 then Some 20%nat else None;
  CheckFieldAccess := fun _ _ _ _ _ _ => true;
  CheckMethodAccess := fun _ _ _ _ => true;
  FindDispatchTarget := fun _ resolved this_object _ =>
                          match this_object with
                          | Some _ => Some resolved
                          | None => None
                          end;
  ResolutionError := fun _ _ => "Ljava/lang/NoSuchFieldError;"%string;
|}.

Definition demo_decode (t : Thread) (obj : nat) : M (option Object) :=
  ret (Some (JavaString, obj)).

#[export] Instance demo_support : RuntimeSupport := cached_support demo_decode.

Definition demo_thread : Thread := mkThread None 0 8192 8192 1048576.

Definition demo_world : World :=
  mkWorld demo_thread ∅ ∅ ∅ false 1048576 [].

(** The demo world after index 1 of caller 0 has been resolved. *)
Definition demo_world_cached : World :=
  mkWorld demo_thread ∅ {[ (0%nat, 1) := 10%nat ]} {[ (0%nat, 1) := 20%nat ]}
          false 1048576 [].

Definition demo_pending (e : Throwable) : World :=
  mkWorld (mkThread (Some e) 0 8192 8192 1048576) ∅ ∅ ∅ false 1048576 [].

Definition demo_helper_table : list (string * Z) :=
  [("__adddf3", 4096); ("__divdi3", 4100); ("__muldi3", 4104); ("memcpy", 4108)]%string.

Definition demo_entry_table : list (string * Z) :=
  [("art_test_suspend_from_code", 8192); ("art_lock_object_from_code", 8196);
   ("art_throw_div_zero_from_code", 8200)]%string.

End Demo.

(** ** The assignability relation of runtime types *)

(** Modelled from the spec: a runtime type describes a class or an array
    type (object.h, which declares art::Class, is not part of this file). *)
Inductive RuntimeType :=
| ClassType (descriptor : string)
| ArrayType (component : RuntimeType).

(** Modelled from the spec: Class::IsAssignableFrom.  The assignable-from
    relation of runtime types is reflexive, and covariant for arrays.
    Between two classes it holds for the same class and where [hierarchy]
    puts the source below the destination; what holds between a class and an
    array type is left to [mixed]. *)
Fixpoint RuntimeType_IsAssignableFrom (hierarchy : string -> string -> bool)
  (mixed : RuntimeType -> RuntimeType -> bool) (dest src : RuntimeType) : bool :=
  match dest, src with
  | ClassType d, ClassType s => String.eqb d s || hierarchy d s
  | ArrayType d, ArrayType s => RuntimeType_IsAssignableFrom hierarchy mixed d s
  | _, _ => mixed dest src
  end.

(** The object model [OM] with the modelled relation for its
    IsAssignableFrom: [describe] gives the runtime type that a class pointer
    stands for. *)
Definition described_model (OM : ObjectModel) (describe : @Klass OM -> RuntimeType)
  (hierarchy : string -> string -> bool) (mixed : RuntimeType -> RuntimeType -> bool)
  : ObjectModel := {|
  Klass := @Klass OM;
  Object := @Object OM;
  Method := @Method OM;
  Field := @Field OM;
  jobject := @jobject OM;
  Heap := @Heap OM;
  Method_eq_dec := @Method_eq_dec OM;
  Method_countable := @Method_countable OM;
  GetClass := @GetClass OM;
  IsAssignableFrom := fun dest src =>
    RuntimeType_IsAssignableFrom hierarchy mixed (describe dest) (describe src);
  GetComponentType := @GetComponentType OM;
  PrettyDescriptor := @PrettyDescriptor OM;
  FindSystemClass := @FindSystemClass OM;
  kDexNoIndex16 := @kDexNoIndex16 OM;
  CatchHandlerIterator := @CatchHandlerIterator OM;
  GetDexCacheResolvedType := @GetDexCacheResolvedType OM;
  GetTypeDescriptorFromTypeIdx := @GetTypeDescriptorFromTypeIdx OM;
  Set32 := @Set32 OM;
  Set64 := @Set64 OM;
  SetObj := @SetObj OM;
  Get32 := @Get32 OM;
  Get64 := @Get64 OM;
  GetObj := @GetObj OM;
  TraceMethodUnwindFromCode := @TraceMethodUnwindFromCode OM;
  sizeof_Object_ptr := @sizeof_Object_ptr OM;
|}.

(** ** The binary search with a budget of iterations *)

(** The loop of std::lower_bound as in [lower_bound_loop], allowed at most
    [budget] iterations, each of which makes one comparison: the position
    that the loop exits with, or nothing when the budget is used up before
    the loop exits. *)
Fixpoint lower_bound_within {A B} (arr : list A) (value : B) (comp : A -> B -> bool)
  (budget first len : nat) : option nat :=
  if (0 <? len)%nat then
    match budget with
    | O => None
    | S budget' =>
        let half := (len / 2)%nat in
        let middle := (first + half)%nat in
        match arr !! middle with
        | Some x =>
            if comp x value
            then lower_bound_within arr value comp budget' (middle + 1)%nat
                                    (len - half - 1)%nat
            else lower_bound_within arr value comp budget' first half
        | None => None
        end
    end
  else Some first.

(** ** Further specification-side definitions *)

Section FailureSpec.
Context `{OM : ObjectModel}.

(** The entry point [op], built on the fast path [fast] and the slow path
    [slow], faults or aborts only when the fast path misses and the slow
    path faults or aborts, and then in the same way. *)
Definition fails_only_as_slow_path {A} (op : M A) (fast : World -> option Field)
  (slow : M (option Field)) : Prop :=
  forall w,
    (op w = Faults <-> fast w = None /\ slow w = Faults) /\
    (forall msg, op w = Aborts msg <-> fast w = None /\ slow w = Aborts msg).

Definition is_warning (e : Event) : Prop := exists msg, e = EvLogWarning msg.

(** [t] returns, and the pending-exception query that follows returns true. *)
Definition raises (t : M unit) (w : World) : Prop :=
  exists w', t w = Returns tt w' /\
             art_is_exception_pending_from_code w' = Returns true w'.

End FailureSpec.

(** ** More of the concrete runtime *)

Module DemoMore.
Import Demo.

(** A method whose handler table at dex pc 0 is a prefix of its table at the
    other dex pcs. *)
Definition pc_handlers (m : nat) (dex_pc : Z) : list Z :=
  if dex_pc =? 0 then [9; 8] else [9; 8; 7].

Definition pc_model : ObjectModel := {|
  Klass := DemoClass;
  Object := DemoClass * nat;
  Method := nat;
  Field := nat;
  jobject := nat;
  Heap := gmap nat Z;
  GetClass := fst;
  IsAssignableFrom := demo_assignable;
  GetComponentType := demo_component;
  PrettyDescriptor := demo_descriptor;
  FindSystemClass := demo_system_class;
  kDexNoIndex16 := 65535;
  CatchHandlerIterator := pc_handlers;
  GetDexCacheResolvedType := demo_resolved_type;
  GetTypeDescriptorFromTypeIdx := fun _ idx => pretty idx;
  Set32 := fun f _ v h => <[f := v]> h;
  Set64 := fun f _ v h => <[f := v]> h;
  SetObj := fun f _ _ h => h;
  Get32 := fun f _ h => default 0 (h !! f);
  Get64 := fun f _ h => default 0 (h !! f);
  GetObj := fun _ _ _ => None;
  TraceMethodUnwindFromCode := fun h => h;
  sizeof_Object_ptr := 4;
|}.

Definition pc_world : @World pc_model :=
  @mkWorld pc_model
    (@mkThread pc_model
       (Some (@NewException pc_model "Ljava/lang/ArithmeticException;" None))
       0 8192 8192 1048576)
    ∅ ∅ ∅ false 1048576 [].

(** A runtime support whose paths both miss, the slow one without raising. *)
Definition silent_support : @RuntimeSupport demo_model := {|
  FindFieldFast := fun _ _ _ _ _ _ => None;
  FindFieldFromCode := fun _ _ _ _ _ _ => ret None;
  FindMethodFast := fun _ _ _ _ _ _ => None;
  FindMethodFromCode := fun _ _ _ _ _ => ret None;
  DecodeJObject := demo_decode;
|}.

(** The runtime types that the demo classes stand for, with
    java.lang.Throwable above java.lang.ArithmeticException and
    java.lang.Object above every class and array type. *)
Definition demo_describe (c : DemoClass) : RuntimeType :=
  match c with
  | JavaObject => ClassType "Ljava/lang/Object;"
  | JavaString => ClassType "Ljava/lang/String;"
  | JavaThrowable => ClassType "Ljava/lang/Throwable;"
  | JavaArithmeticException => ClassType "Ljava/lang/ArithmeticException;"
  | ObjectArray => ArrayType (ClassType "Ljava/lang/Object;")
  | StringArray => ArrayType (ClassType "Ljava/lang/String;")
  end.

Definition demo_hierarchy (dest src : string) : bool :=
  String.eqb dest "Ljava/lang/Object;" ||
  (String.eqb dest "Ljava/lang/Throwable;" &&
   String.eqb src "Ljava/lang/ArithmeticException;").

Definition demo_mixed (dest src : RuntimeType) : bool :=
  match dest with
  | ClassType d => String.eqb d "Ljava/lang/Object;"
  | ArrayType _ => false
  end.

Definition described_demo : ObjectModel :=
  described_model demo_model demo_describe demo_hierarchy demo_mixed.

Definition described_world : @World described_demo :=
  @mkWorld described_demo (@mkThread described_demo None 0 8192 8192 1048576)
           ∅ ∅ ∅ false 1048576 [].

(** A sorted helper table in which a name is registered twice. *)
Definition twice_table : list (string * Z) :=
  [("__adddf3", 4096); ("__divdi3", 4100); ("__divdi3", 4200); ("memcpy", 4108)]%string.

End DemoMore.

(** * Properties *)

(** ** Strings *)

Lemma append_cons (x : ascii) (a b : string) : String x a +:+ b = String x (a +:+ b).
Proof. reflexivity. Qed.

Lemma append_assoc (a b c : string) : (a +:+ b) +:+ c = a +:+ (b +:+ c).
Proof.
  induction a as [|x a IH]; [reflexivity|].
  rewrite !append_cons. now rewrite IH.
Qed.

Lemma contains_prefix (a rest : string) : contains a (a +:+ rest).
Proof. exists ""%string, rest. reflexivity. Qed.

(** ** The monad *)

Section MonadFacts.
Context `{OM : ObjectModel}.

Lemma bind_Returns {A B} (c : M A) (k : A -> M B) (w w' : World) (a : A) :
  c w = Returns a w' -> bind c k w = k a w'.
Proof. intros H. unfold bind. now rewrite H. Qed.

Lemma ThrowNewException_run (d : string) (msg : option string) (w : World) :
  ThrowNewException d msg w =
  Returns tt (set_self (with_exception (Some (NewException d msg))) (emit (EvConstruct d) w)).
Proof. reflexivity. Qed.

Lemma ThrowNewException_changes (d : string) (msg : option string) (w w' : World) :
  ThrowNewException d msg w = Returns tt w' -> w' <> w.
Proof.
  rewrite ThrowNewException_run. intros [= <-] H.
  apply (f_equal events) in H. simpl in H.
  apply (f_equal (@length Event)) in H. rewrite length_app in H. simpl in H. lia.
Qed.

End MonadFacts.

(** ** Type checking *)

Section TypeCheckFacts.
Context `{OM : ObjectModel}.

Lemma RuntimeType_IsAssignableFrom_refl (hierarchy : string -> string -> bool)
  (mixed : RuntimeType -> RuntimeType -> bool) (t : RuntimeType) :
  RuntimeType_IsAssignableFrom hierarchy mixed t t = true.
Proof.
  induction t as [d|component IH]; simpl.
  - now rewrite String.eqb_refl.
  - exact IH.
Qed.

(** Arrays are covariant: an array type is assignable from another exactly
    when its component type is assignable from the other's. *)
Lemma RuntimeType_IsAssignableFrom_array (hierarchy : string -> string -> bool)
  (mixed : RuntimeType -> RuntimeType -> bool) (dest src : RuntimeType) :
  RuntimeType_IsAssignableFrom hierarchy mixed (ArrayType dest) (ArrayType src)
  = RuntimeType_IsAssignableFrom hierarchy mixed dest src.
Proof. reflexivity. Qed.

(** C5.  The assignability query returns 1 when [dest_type] is assignable
    from [src_type] and 0 otherwise, whatever the relation, and leaves the
    world, the pending exception included, as it was.  With the assignable-from
    relation of runtime types for Class::IsAssignableFrom it returns 1
    whenever the two types are the same. *)
Theorem art_is_assignable_from_code_spec
  (describe : Klass -> RuntimeType) (hierarchy : string -> string -> bool)
  (mixed : RuntimeType -> RuntimeType -> bool)
  (dest_type src_type : Klass) (w : World)
  (w_described : @World (described_model OM describe hierarchy mixed)) :
  (exists r, art_is_assignable_from_code dest_type src_type w = Returns r w /\
             (r = 1 \/ r = 0) /\
             (r = 1 <-> IsAssignableFrom dest_type src_type = true) /\
             (r = 0 <-> IsAssignableFrom dest_type src_type = false)) /\
  (exists r,
      @art_is_assignable_from_code (described_model OM describe hierarchy mixed)
        dest_type src_type w_described = Returns r w_described /\
      (r = 1 \/ r = 0) /\
      (r = 1 <-> RuntimeType_IsAssignableFrom hierarchy mixed
                   (describe dest_type) (describe src_type) = true) /\
      (dest_type = src_type -> r = 1)).
Proof.
  unfold art_is_assignable_from_code, ret. split.
  - destruct (IsAssignableFrom dest_type src_type) eqn:E.
    + exists 1. repeat split; auto; intros; discriminate.
    + exists 0. repeat split; auto; intros; discriminate.
  - simpl IsAssignableFrom.
    destruct (RuntimeType_IsAssignableFrom hierarchy mixed
                (describe dest_type) (describe src_type)) eqn:E.
    + exists 1. repeat split; auto.
    + exists 0. repeat split; auto; try discriminate.
      intros ->. rewrite RuntimeType_IsAssignableFrom_refl in E. discriminate.
Qed.

(** C6.  The cast check does nothing when [dest_type] is assignable from
    [src_type]; otherwise it installs a pending ClassCastException whose
    message contains the names of both types and changes nothing else of the
    thread or the heap.  It leaves the world as it was exactly when the
    assignability query returns 1 for the same pair. *)
Theorem art_check_cast_from_code_spec (dest_type src_type : Klass) (w : World) :
  (IsAssignableFrom dest_type src_type = true ->
   art_check_cast_from_code dest_type src_type w = Returns tt w) /\
  (IsAssignableFrom dest_type src_type = false ->
   exists msg w',
     art_check_cast_from_code dest_type src_type w = Returns tt w' /\
     exception_ (self w') =
       Some (NewException "Ljava/lang/ClassCastException;" (Some msg)) /\
     contains (PrettyDescriptor dest_type) msg /\
     contains (PrettyDescriptor src_type) msg /\
     heap w' = heap w /\ stack_end_ (self w') = stack_end_ (self w)) /\
  (exists w', art_check_cast_from_code dest_type src_type w = Returns tt w' /\
              (w' = w <-> art_is_assignable_from_code dest_type src_type w = Returns 1 w)).
Proof.
  unfold art_check_cast_from_code, art_is_assignable_from_code, ThrowNewExceptionF.
  destruct (IsAssignableFrom dest_type src_type) eqn:E; simpl negb; cbv iota.
  - split; [reflexivity|]. split; [discriminate|].
    exists w. split; [reflexivity|]. split; reflexivity.
  - split; [discriminate|]. split.
    + intros _. eexists. eexists. split; [apply ThrowNewException_run|].
      split; [reflexivity|]. simpl StringPrintf.
      split; [apply contains_prefix|].
      split; [|split; reflexivity].
      exists (PrettyDescriptor dest_type +:+ " cannot be cast to ")%string, ""%string.
      now rewrite append_assoc.
    + eexists. split; [apply ThrowNewException_run|]. split.
      * intros H. exfalso. revert H.
        apply (ThrowNewException_changes _ _ _ _ (ThrowNewException_run _ _ _)).
      * unfold ret. discriminate.
Qed.

(** C7.  The array-store check never raises for a null element, whatever
    the array.  For a non-null element and an array whose class has a
    component type, it does nothing when the component type is assignable
    from the element's class, and otherwise installs a pending
    ArrayStoreException and changes nothing else of the thread or the heap. *)
Theorem art_check_put_array_element_from_code_spec
  (element array : option Object) (w : World) :
  (element = None ->
   art_check_put_array_element_from_code element array w = Returns tt w) /\
  (forall e a component_type,
     element = Some e -> array = Some a ->
     GetComponentType (GetClass a) = Some component_type ->
     (IsAssignableFrom component_type (GetClass e) = true ->
      art_check_put_array_element_from_code element array w = Returns tt w) /\
     (IsAssignableFrom component_type (GetClass e) = false ->
      exists msg w',
        art_check_put_array_element_from_code element array w = Returns tt w' /\
        w' <> w /\
        exception_ (self w') =
          Some (NewException "Ljava/lang/ArrayStoreException;" (Some msg)) /\
        contains (PrettyDescriptor (GetClass e)) msg /\
        contains (PrettyDescriptor (GetClass a)) msg /\
        heap w' = heap w /\ stack_end_ (self w') = stack_end_ (self w))).
Proof.
  split.
  - intros ->. reflexivity.
  - intros e a ct -> -> Hct.
    unfold art_check_put_array_element_from_code, deref.
    rewrite (bind_Returns _ _ w w a) by reflexivity.
    rewrite Hct. rewrite (bind_Returns _ _ w w ct) by reflexivity.
    destruct (IsAssignableFrom ct (GetClass e)) eqn:E; simpl negb; cbv iota.
    + split; [reflexivity | discriminate].
    + split; [discriminate|]. intros _. unfold ThrowNewExceptionF.
      eexists. eexists. split; [apply ThrowNewException_run|].
      split; [apply (ThrowNewException_changes _ _ _ _ (ThrowNewException_run _ _ _))|].
      split; [reflexivity|]. simpl StringPrintf.
      split; [apply contains_prefix|].
      split; [|split; reflexivity].
      exists (PrettyDescriptor (GetClass e)
              +:+ " cannot be stored in an array of type ")%string, ""%string.
      now rewrite append_assoc.
Qed.

End TypeCheckFacts.

(** ** Exceptions *)

Section ExceptionFacts.
Context `{OM : ObjectModel}.

Lemma to_int32_small (z : Z) : - 2 ^ 31 <= z < 2 ^ 31 -> to_int32 z = z.
Proof. intros H. unfold to_int32. rewrite Z.mod_small; lia. Qed.

Lemma log_all_nil (w : World) : log_all [] w = w.
Proof. destruct w. unfold log_all. simpl. now rewrite app_nil_r. Qed.

Lemma log_all_emit (e : Event) (es : list Event) (w : World) :
  log_all es (emit e w) = log_all (e :: es) w.
Proof. unfold log_all, emit. simpl. now rewrite <- app_assoc. Qed.

(** C9.  Throwing null installs a NullPointerException; throwing an object
    installs that object; either replaces whatever was pending, and the rest
    of the thread and the heap stay as they were. *)
Theorem art_throw_exception_from_code_spec (exception : option Object) (w : World) :
  exists w',
    art_throw_exception_from_code exception w = Returns tt w' /\
    exception_ (self w') =
      Some (match exception with
            | None => NewException "Ljava/lang/NullPointerException;"
                                   (Some "throw with null exception"%string)
            | Some o => ThrownObject o
            end) /\
    IsExceptionPending (self w') = true /\
    heap w' = heap w /\
    stack_end_ (self w') = stack_end_ (self w).
Proof.
  destruct exception as [o|]; eexists; (split; [reflexivity|]); repeat split.
Qed.

(** C8.  Throwing a stack overflow moves the soft stack limit to the hard
    limit, then constructs the StackOverflowError, then puts the soft limit
    back to its default, in that order and whether or not method tracing is
    active: when it returns, the stack end is the default one, which is the
    original one if the thread ran on its default limit, and a
    StackOverflowError is pending. *)
Theorem art_throw_stack_overflow_from_code_spec (w : World) :
  exists msg w',
    art_throw_stack_overflow_from_code w = Returns tt w' /\
    events w' = events w ++ [EvStackEnd (stack_begin_ (self w));
                             EvConstruct "Ljava/lang/StackOverflowError;";
                             EvStackEnd (default_stack_end_ (self w))] /\
    stack_end_ (self w') = default_stack_end_ (self w') /\
    default_stack_end_ (self w') = default_stack_end_ (self w) /\
    stack_begin_ (self w') = stack_begin_ (self w) /\
    (stack_end_ (self w) = default_stack_end_ (self w) ->
     stack_end_ (self w') = stack_end_ (self w)) /\
    exception_ (self w') =
      Some (NewException "Ljava/lang/StackOverflowError;" (Some msg)).
Proof.
  unfold art_throw_stack_overflow_from_code.
  rewrite (bind_Returns _ _ w w w) by reflexivity.
  destruct (method_tracing_active_ w) eqn:E.
  - eexists. eexists. split.
    { cbv [bind modify get ret SetStackEndForStackOverflow ThrowNewExceptionF
           ThrowNewException SetException ResetDefaultStackEnd]. reflexivity. }
    simpl. rewrite <- !app_assoc. simpl. repeat split; auto.
  - eexists. eexists. split.
    { cbv [bind modify get ret SetStackEndForStackOverflow ThrowNewExceptionF
           ThrowNewException SetException ResetDefaultStackEnd]. reflexivity. }
    simpl. rewrite <- !app_assoc. simpl. repeat split; auto.
Qed.

Lemma find_catch_block_loop_spec (m : Method) (et : Klass) (it : list Z) :
  forall (k : nat) (w : World),
    Z.of_nat k + Z.of_nat (length it) < 2 ^ 31 ->
    exists r n,
      find_catch_block_loop m et it (Z.of_nat k) w
        = Returns r (log_all (scan_warnings (heap w) m (take n it)) w) /\
      Forall (fun x => handler_matches (heap w) m et x = false) (take n it) /\
      ((r = -1 /\ n = length it) \/
       (r = Z.of_nat (k + n) /\
        exists x, it !! n = Some x /\ handler_matches (heap w) m et x = true)).
Proof.
  induction it as [|x it IH]; intros k w Hlen.
  - exists (-1), 0%nat. simpl. rewrite log_all_nil.
    split; [reflexivity|]. split; [constructor|]. left. split; reflexivity.
  - simpl in Hlen. simpl find_catch_block_loop.
    assert (Hnext : to_int32 (Z.of_nat k + 1) = Z.of_nat (S k)).
    { rewrite to_int32_small; lia. }
    destruct (x =? kDexNoIndex16) eqn:Ex.
    + exists (Z.of_nat k), 0%nat. simpl. rewrite log_all_nil.
      split; [reflexivity|]. split; [constructor|]. right.
      split; [f_equal; lia|]. exists x. split; [reflexivity|].
      unfold handler_matches. now rewrite Ex.
    + rewrite (bind_Returns _ _ w w w) by reflexivity.
      destruct (GetDexCacheResolvedType (heap w) m x) as [declared|] eqn:Et.
      * destruct (IsAssignableFrom declared et) eqn:Ea.
        -- exists (Z.of_nat k), 0%nat. simpl. rewrite log_all_nil.
           split; [reflexivity|]. split; [constructor|]. right.
           split; [f_equal; lia|]. exists x. split; [reflexivity|].
           unfold handler_matches. rewrite Ex, Et. exact Ea.
        -- rewrite Hnext.
           destruct (IH (S k) w) as (r & n & Hrun & Hnone & Hres); [lia|].
           exists r, (S n). rewrite Hrun. simpl take.
           unfold scan_warnings. rewrite filter_cons_False.
           2:{ unfold handler_unresolved. rewrite Ex, Et. simpl. discriminate. }
           split; [reflexivity|]. split.
           { constructor; [|exact Hnone].
             unfold handler_matches. rewrite Ex, Et. exact Ea. }
           destruct Hres as [[-> ->]|[-> Hx]].
           ++ left. split; reflexivity.
           ++ right. split; [f_equal; lia | exact Hx].
      * unfold LOG_WARNING.
        rewrite (bind_Returns _ _ w (emit (unresolved_warning m x) w) tt) by reflexivity.
        rewrite Hnext.
        destruct (IH (S k) (emit (unresolved_warning m x) w))
          as (r & n & Hrun & Hnone & Hres); [lia|].
        exists r, (S n). rewrite Hrun. simpl take. simpl heap.
        rewrite log_all_emit.
        unfold scan_warnings at 2. rewrite filter_cons_True.
        2:{ unfold handler_unresolved. now rewrite Ex, Et. }
        split; [reflexivity|]. split.
        { constructor; [|exact Hnone].
          unfold handler_matches. now rewrite Ex, Et. }
        destruct Hres as [[-> ->]|[-> Hx]].
        -- left. split; reflexivity.
        -- right. split; [f_equal; lia | exact Hx].
Qed.

(** C1.  With an exception pending, catch-block search scans the handler
    entries of the method for the dex pc in table order.  It returns the
    zero-based index of the first entry that is a catch-all or whose
    resolved type is assignable from the class of the pending exception, and
    -1 exactly when no entry is such.  Every entry with an unresolved type
    that the scan passes is logged as a warning and counts as not matching;
    nothing else of the world changes. *)
Theorem art_find_catch_block_from_code_spec
  (current_method : Method) (dex_pc : Z) (w : World) (e : Throwable)
  (Hpending : GetException (self w) = Some e)
  (Hsize : Z.of_nat (length (CatchHandlerIterator current_method dex_pc)) < 2 ^ 31) :
  let table := CatchHandlerIterator current_method dex_pc in
  let matches := handler_matches (heap w) current_method (Throwable_GetClass e) in
  exists r n,
    art_find_catch_block_from_code current_method dex_pc w
      = Returns r (log_all (scan_warnings (heap w) current_method (take n table)) w) /\
    Forall (fun x => matches x = false) (take n table) /\
    ((r = -1 /\ n = length table) \/
     (r = Z.of_nat n /\ exists x, table !! n = Some x /\ matches x = true)) /\
    (r = -1 <-> Forall (fun x => matches x = false) table).
Proof.
  intros table matches. unfold art_find_catch_block_from_code.
  rewrite (bind_Returns _ _ w w w) by reflexivity.
  rewrite Hpending. unfold deref.
  rewrite (bind_Returns _ _ w w e) by reflexivity.
  destruct (find_catch_block_loop_spec current_method (Throwable_GetClass e) table 0 w)
    as (r & n & Hrun & Hnone & Hres); [subst table; lia|].
  exists r, n. split; [exact Hrun|]. split; [exact Hnone|]. split; [exact Hres|].
  destruct Hres as [[-> ->]|[-> (x & Hx & Hm)]].
  - split; [intros _|reflexivity].
    rewrite take_ge in Hnone by lia. exact Hnone.
  - split; [lia|]. intros Hall. exfalso.
    apply (Forall_lookup_1 _ _ _ _ Hall) in Hx. subst matches. simpl in Hx.
    congruence.
Qed.

End ExceptionFacts.

(** ** Field access and handle decoding *)

Section ResolutionFacts.
Context `{OM : ObjectModel} `{RS : !RuntimeSupport}.

(** C10.  With an exception pending in [thread] the handle is not decoded:
    the result is null and the world is untouched, whatever DecodeJObject
    would have done.  Without one the result is that of DecodeJObject. *)
Theorem art_decode_jobject_in_thread_spec (thread : Thread) (obj : jobject) (w : World) :
  (IsExceptionPending thread = true ->
   art_decode_jobject_in_thread thread obj w = Returns None w) /\
  (IsExceptionPending thread = false ->
   art_decode_jobject_in_thread thread obj w = DecodeJObject thread obj w).
Proof.
  unfold art_decode_jobject_in_thread.
  split; intros ->; reflexivity.
Qed.

Ltac run_fast Hfast :=
  match goal with
  | |- context [bind get _ ?w] => rewrite (bind_Returns get _ w w w) by reflexivity
  end; rewrite Hfast.

Ltac run_slow Hslow := unfold bind at 1; rewrite Hslow.

Ltac prove_write Hcontract :=
  unfold write_entry_point; intros w; split; [|split; [|split]];
  [ intros f Hfast; run_fast Hfast; reflexivity
  | intros f w1 Hfast Hslow; run_fast Hfast; run_slow Hslow; reflexivity
  | intros w1 Hfast Hslow; exists (-1); run_fast Hfast; run_slow Hslow;
    split; [reflexivity | split; [lia | exact (Hcontract _ _ _ _ _ _ _ _ Hslow)]]
  | intros w'; match goal with
               | |- context [bind get _ ?w] =>
                   rewrite (bind_Returns get _ w w w) by reflexivity
               end;
    match goal with
    | |- context [match ?fast with Some _ => _ | None => _ end] =>
        destruct fast as [f|] eqn:Hfast; [intros _; left; now exists f|]
    end;
    unfold bind at 1;
    match goal with
    | |- context [match ?slow with Returns _ _ => _ | Aborts _ => _ | Faults => _ end] =>
        destruct slow as [[f|] w1| |] eqn:Hslow;
        [ intros _; right; exists f, w1; split; reflexivity
        | unfold ret; discriminate | discriminate | discriminate ]
    end ].

Ltac prove_read Hcontract :=
  unfold read_entry_point; intros w; split; [|split];
  [ intros f Hfast; run_fast Hfast; reflexivity
  | intros f w1 Hfast Hslow; run_fast Hfast; run_slow Hslow; reflexivity
  | intros w1 Hfast Hslow; split;
    [ run_fast Hfast; run_slow Hslow; reflexivity
    | exact (Hcontract _ _ _ _ _ _ _ _ Hslow) ] ].

(** C4.  Provided the slow path leaves an exception pending whenever it
    returns null, each of the six write entry points returns 0 exactly when
    the fast path or else the slow path resolves the field, having performed
    the typed write on it, and returns a non-zero code with an exception
    pending when both fail; each of the six read entry points returns what it
    reads on success and the zero or null sentinel, with an exception
    pending, on failure. *)
Theorem field_entry_points_status
  (Hcontract : forall field_idx referrer is_static is_primitive is_set expected_size w w',
      FindFieldFromCode field_idx referrer is_static is_primitive is_set expected_size w
        = Returns None w' ->
      IsExceptionPending (self w') = true)
  (field_idx : Z) (referrer : Method) (obj : option Object) :
  (forall new_value,
      write_entry_point (art_set32_static_from_code field_idx referrer new_value)
        (FindFieldFast field_idx referrer true true sizeof_uint32_t)
        (FindFieldFromCode field_idx referrer true true true sizeof_uint32_t)
        (fun f => Set32 f None new_value)) /\
  (forall new_value,
      write_entry_point (art_set64_static_from_code field_idx referrer new_value)
        (FindFieldFast field_idx referrer true true sizeof_uint64_t)
        (FindFieldFromCode field_idx referrer true true true sizeof_uint64_t)
        (fun f => Set64 f None new_value)) /\
  (forall new_value,
      write_entry_point (art_set_obj_static_from_code field_idx referrer new_value)
        (FindFieldFast field_idx referrer false true sizeof_Object_ptr)
        (FindFieldFromCode field_idx referrer true false true sizeof_Object_ptr)
        (fun f => SetObj f None new_value)) /\
  (forall new_value,
      write_entry_point (art_set32_instance_from_code field_idx referrer obj new_value)
        (FindFieldFast field_idx referrer true true sizeof_uint32_t)
        (FindFieldFromCode field_idx referrer false true true sizeof_uint32_t)
        (fun f => Set32 f obj new_value)) /\
  (forall new_value,
      write_entry_point (art_set64_instance_from_code field_idx referrer obj new_value)
        (FindFieldFast field_idx referrer true true sizeof_uint64_t)
        (FindFieldFromCode field_idx referrer false true true sizeof_uint64_t)
        (fun f => Set64 f obj new_value)) /\
  (forall new_value,
      write_entry_point (art_set_obj_instance_from_code field_idx referrer obj new_value)
        (FindFieldFast field_idx referrer false true sizeof_Object_ptr)
        (FindFieldFromCode field_idx referrer false false true sizeof_Object_ptr)
        (fun f => SetObj f obj new_value)) /\
  read_entry_point (art_get32_static_from_code field_idx referrer)
    (FindFieldFast field_idx referrer true false sizeof_uint32_t)
    (FindFieldFromCode field_idx referrer true true false sizeof_uint32_t)
    (fun f => Get32 f None) 0 /\
  read_entry_point (art_get64_static_from_code field_idx referrer)
    (FindFieldFast field_idx referrer true false sizeof_uint64_t)
    (FindFieldFromCode field_idx referrer true true false sizeof_uint64_t)
    (fun f => Get64 f None) 0 /\
  read_entry_point (art_get_obj_static_from_code field_idx referrer)
    (FindFieldFast field_idx referrer false false sizeof_Object_ptr)
    (FindFieldFromCode field_idx referrer true false false sizeof_Object_ptr)
    (fun f => GetObj f None) None /\
  read_entry_point (art_get32_instance_from_code field_idx referrer obj)
    (FindFieldFast field_idx referrer true false sizeof_uint32_t)
    (FindFieldFromCode field_idx referrer false true false sizeof_uint32_t)
    (fun f => Get32 f obj) 0 /\
  read_entry_point (art_get64_instance_from_code field_idx referrer obj)
    (FindFieldFast field_idx referrer true false sizeof_uint64_t)
    (FindFieldFromCode field_idx referrer false true false sizeof_uint64_t)
    (fun f => Get64 f obj) 0 /\
  read_entry_point (art_get_obj_instance_from_code field_idx referrer obj)
    (FindFieldFast field_idx referrer false false sizeof_Object_ptr)
    (FindFieldFromCode field_idx referrer false false false sizeof_Object_ptr)
    (fun f => GetObj f obj) None.
Proof.
  repeat match goal with |- _ /\ _ => split end;
    try match goal with |- forall _, _ => intros new_value end.
  - unfold art_set32_static_from_code. prove_write Hcontract.
  - unfold art_set64_static_from_code. prove_write Hcontract.
  - unfold art_set_obj_static_from_code. prove_write Hcontract.
  - unfold art_set32_instance_from_code. prove_write Hcontract.
  - unfold art_set64_instance_from_code. prove_write Hcontract.
  - unfold art_set_obj_instance_from_code. prove_write Hcontract.
  - unfold art_get32_static_from_code. prove_read Hcontract.
  - unfold art_get64_static_from_code. prove_read Hcontract.
  - unfold art_get_obj_static_from_code. prove_read Hcontract.
  - unfold art_get32_instance_from_code. prove_read Hcontract.
  - unfold art_get64_instance_from_code. prove_read Hcontract.
  - unfold art_get_obj_instance_from_code. prove_read Hcontract.
Qed.

End ResolutionFacts.

(** ** The resolution cache *)

Section CachedResolutionFacts.
Context `{OM : ObjectModel} `{CL : !ClassLinker}.

Lemma cache_consistent_empty (w : World) :
  resolved_fields_ w = ∅ -> resolved_methods_ w = ∅ -> cache_consistent w.
Proof.
  intros Hf Hm. split.
  - intros referrer idx f. rewrite Hf, lookup_empty. discriminate.
  - intros caller idx m. rewrite Hm, lookup_empty. discriminate.
Qed.

Lemma cache_field_consistent (w : World) (referrer : Method) (field_idx : Z) (f : Field) :
  cache_consistent w -> ResolveField referrer field_idx = Some f ->
  cache_consistent (cache_field (referrer, field_idx) f w).
Proof.
  intros [Hf Hm] Hres. split; [|exact Hm].
  intros referrer' idx' f'. simpl.
  destruct (decide ((referrer, field_idx) = (referrer', idx'))) as [[= <- <-]|Hne].
  - rewrite lookup_insert_eq. congruence.
  - rewrite lookup_insert_ne by exact Hne. apply Hf.
Qed.

Lemma cache_method_consistent (w : World) (caller : Method) (method_idx : Z) (m : Method) :
  cache_consistent w -> ResolveMethod caller method_idx = Some m ->
  cache_consistent (cache_method (caller, method_idx) m w).
Proof.
  intros [Hf Hm] Hres. split; [exact Hf|].
  intros caller' idx' m'. simpl.
  destruct (decide ((caller, method_idx) = (caller', idx'))) as [[= <- <-]|Hne].
  - rewrite lookup_insert_eq. congruence.
  - rewrite lookup_insert_ne by exact Hne. apply Hm.
Qed.

(** The slow paths keep the cache consistent. *)
Lemma cached_FindFieldFromCode_consistent (field_idx : Z) (referrer : Method)
  (is_static is_primitive is_set : bool) (expected_size : Z) (w w' : World)
  (r : option Field) :
  cache_consistent w ->
  cached_FindFieldFromCode field_idx referrer is_static is_primitive is_set expected_size w
    = Returns r w' ->
  cache_consistent w'.
Proof.
  intros Hinv. unfold cached_FindFieldFromCode.
  destruct (ResolveField referrer field_idx) as [f|] eqn:Hres.
  - destruct (CheckFieldAccess f referrer is_static is_primitive is_set expected_size).
    + intros [= <- <-]. now apply cache_field_consistent.
    + intros [= <- <-]. exact Hinv.
  - intros [= <- <-]. exact Hinv.
Qed.

Lemma cached_FindMethodFromCode_consistent (method_idx : Z) (this_object : option Object)
  (caller_method : Method) (access_check : bool) (type : InvokeType) (w w' : World)
  (r : option Method) :
  cache_consistent w ->
  cached_FindMethodFromCode method_idx this_object caller_method access_check type w
    = Returns r w' ->
  cache_consistent w'.
Proof.
  intros Hinv. unfold cached_FindMethodFromCode.
  destruct (ResolveMethod caller_method method_idx) as [m|] eqn:Hres.
  - destruct (CheckMethodAccess m caller_method access_check type).
    + unfold bind, modify.
      destruct (FindDispatchTarget type m this_object caller_method).
      * intros [= <- <-]. now apply cache_method_consistent.
      * intros [= <- <-]. now apply cache_method_consistent.
    + intros [= <- <-]. exact Hinv.
  - intros [= <- <-]. exact Hinv.
Qed.

(** C2.  In a world whose resolution cache is consistent, when the fast
    path and the slow path are both run for the same caller, index and
    receiver and both succeed, they yield the same field, respectively the
    same method.  Hence what the two-tier operations deliver does not depend
    on the path that served it: a method that FindMethodHelper returns is the
    dispatch target of what the index resolves to, and a successful 32-bit
    instance write stores into the field that the index resolves to. *)
Theorem fast_slow_resolution_equivalent
  (decode : Thread -> jobject -> M (option Object)) (w : World)
  (Hinv : cache_consistent w) :
  (forall field_idx referrer is_static p s sz p' s' sz' f f' w',
      cached_FindFieldFast field_idx referrer p s sz w = Some f ->
      cached_FindFieldFromCode field_idx referrer is_static p' s' sz' w
        = Returns (Some f') w' ->
      f = f') /\
  (forall method_idx this_object caller access_check type m m' w',
      cached_FindMethodFast method_idx this_object caller access_check type w = Some m ->
      cached_FindMethodFromCode method_idx this_object caller access_check type w
        = Returns (Some m') w' ->
      m = m') /\
  (forall method_idx this_object caller access_check type m w',
      FindMethodHelper (RS := cached_support decode)
                       method_idx this_object caller access_check type w
        = Returns (Some m) w' ->
      exists resolved,
        ResolveMethod caller method_idx = Some resolved /\
        FindDispatchTarget type resolved this_object caller = Some m) /\
  (forall field_idx referrer obj new_value w',
      art_set32_instance_from_code (RS := cached_support decode)
                                   field_idx referrer obj new_value w
        = Returns 0 w' ->
      exists f,
        ResolveField referrer field_idx = Some f /\
        heap w' = Set32 f obj new_value (heap w)).
Proof.
  destruct Hinv as [Hf Hm]. repeat split.
  - intros field_idx referrer is_static p s sz p' s' sz' f f' w' Hfast Hslow.
    unfold cached_FindFieldFast in Hfast. apply Hf in Hfast.
    unfold cached_FindFieldFromCode in Hslow. rewrite Hfast in Hslow.
    destruct (CheckFieldAccess f referrer is_static p' s' sz');
      cbv [bind modify ret ThrowNewException SetException] in Hslow; congruence.
  - intros method_idx this_object caller access_check type m m' w' Hfast Hslow.
    unfold cached_FindMethodFast in Hfast.
    destruct (resolved_methods_ w !! (caller, method_idx)) as [r|] eqn:Hc; [|discriminate].
    apply Hm in Hc. unfold cached_FindMethodFromCode in Hslow. rewrite Hc in Hslow.
    destruct (CheckMethodAccess r caller access_check type); [|discriminate].
    unfold bind, modify in Hslow. rewrite Hfast in Hslow.
    unfold ret in Hslow. congruence.
  - intros method_idx this_object caller access_check type m w'.
    unfold FindMethodHelper. rewrite (bind_Returns get _ w w w) by reflexivity.
    cbv [FindMethodFast FindMethodFromCode cached_support]. unfold cached_FindMethodFast.
    destruct (resolved_methods_ w !! (caller, method_idx)) as [r|] eqn:Hc.
    + apply Hm in Hc.
      destruct (FindDispatchTarget type r this_object caller) as [t|] eqn:Ht.
      * unfold ret. intros [= <- <-]. now exists r.
      * unfold bind. unfold cached_FindMethodFromCode.
        rewrite Hc. destruct (CheckMethodAccess r caller access_check type);
          unfold bind, modify; rewrite ?Ht; simpl; discriminate.
    + unfold bind. unfold cached_FindMethodFromCode.
      destruct (ResolveMethod caller method_idx) as [r|] eqn:Hr; [|simpl; discriminate].
      destruct (CheckMethodAccess r caller access_check type); [|simpl; discriminate].
      unfold bind, modify.
      destruct (FindDispatchTarget type r this_object caller) as [t|] eqn:Ht.
      * unfold ret. intros [= <- <-]. now exists r.
      * simpl. discriminate.
  - intros field_idx referrer obj new_value w'.
    unfold art_set32_instance_from_code. rewrite (bind_Returns get _ w w w) by reflexivity.
    cbv [FindFieldFast FindFieldFromCode cached_support]. unfold cached_FindFieldFast.
    destruct (resolved_fields_ w !! (referrer, field_idx)) as [f|] eqn:Hc.
    + apply Hf in Hc. cbv [bind modify ret]. intros [= <-]. now exists f.
    + unfold bind. unfold cached_FindFieldFromCode.
      destruct (ResolveField referrer field_idx) as [f|] eqn:Hr; [|simpl; discriminate].
      destruct (CheckFieldAccess f referrer false true true sizeof_uint32_t);
        [|simpl; discriminate].
      cbv [bind modify ret]. intros [= <-]. now exists f.
Qed.

End CachedResolutionFacts.

(** ** The runtime symbol table *)

Lemma byte_inj (a b : ascii) : byte a = byte b -> a = b.
Proof.
  unfold byte. intros H. apply N2Z.inj in H.
  rewrite <- (ascii_N_embedding a), <- (ascii_N_embedding b). now rewrite H.
Qed.

Lemma strcmp_refl (a : string) : strcmp a a = 0.
Proof. induction a as [|x a IH]; simpl; [reflexivity|]. now rewrite Z.eqb_refl. Qed.

Lemma strcmp_eq (a b : string) : strcmp a b = 0 -> a = b.
Proof.
  revert b. induction a as [|x a IH]; intros [|y b]; simpl; try discriminate; auto.
  destruct (byte x =? byte y) eqn:E.
  - apply Z.eqb_eq, byte_inj in E. intros H. apply IH in H. congruence.
  - apply Z.eqb_neq in E. lia.
Qed.

Lemma strcmp_eq_iff (a b : string) : strcmp a b = 0 <-> a = b.
Proof. split; [apply strcmp_eq | intros ->; apply strcmp_refl]. Qed.

(** Transitivity of the order that strcmp decides, in its three forms. *)
Lemma strcmp_trans (a : string) :
  forall b c,
    (strcmp a b <= 0 -> strcmp b c <= 0 -> strcmp a c <= 0) /\
    (strcmp a b < 0 -> strcmp b c <= 0 -> strcmp a c < 0) /\
    (strcmp a b <= 0 -> strcmp b c < 0 -> strcmp a c < 0).
Proof.
  induction a as [|x a IH]; intros [|y b] [|z c]; simpl; try lia.
  destruct (byte x =? byte y) eqn:Exy, (byte y =? byte z) eqn:Eyz,
           (byte x =? byte z) eqn:Exz;
    rewrite ?Z.eqb_eq, ?Z.eqb_neq in *; try lia.
  apply IH.
Qed.

Lemma StronglySorted_lookup_le {A} (R : A -> A -> Prop) (l : list A) :
  StronglySorted R l ->
  forall i j a b, (i < j)%nat -> l !! i = Some a -> l !! j = Some b -> R a b.
Proof.
  induction 1 as [|x l Hs IH Hall]; intros i j a b Hij Ha Hb.
  - discriminate.
  - destruct j as [|j]; [lia|]. simpl in Hb. destruct i as [|i].
    + simpl in Ha. injection Ha as <-.
      rewrite List.Forall_forall in Hall. apply Hall.
      apply list_elem_of_In. eapply list_elem_of_lookup_2. exact Hb.
    + simpl in Ha. apply (IH i j); [lia | exact Ha | exact Hb].
Qed.

Lemma names_sorted_partitioned (names : list string) (name : string) :
  names_sorted names -> partitioned names name CStringComparator.
Proof.
  intros Hs i j a b Hij Ha Hb. unfold CStringComparator. rewrite !Z.ltb_lt. intros Hlt.
  destruct (decide (i = j)) as [->|Hne].
  - congruence.
  - assert (Hab : strcmp a b <= 0).
    { apply (StronglySorted_lookup_le _ _ Hs i j); [lia | exact Ha | exact Hb]. }
    now apply (strcmp_trans a b name).
Qed.

Lemma lower_bound_loop_S {A B} (arr : list A) (value : B) (comp : A -> B -> bool)
  (fuel first len : nat) :
  lower_bound_loop arr value comp (S fuel) first len =
  if (0 <? len)%nat then
    match arr !! (first + len / 2)%nat with
    | Some x =>
        if comp x value
        then lower_bound_loop arr value comp fuel (first + len / 2 + 1)%nat
                              (len - len / 2 - 1)%nat
        else lower_bound_loop arr value comp fuel first (len / 2)%nat
    | None => first
    end
  else first.
Proof. reflexivity. Qed.

Lemma lower_bound_loop_spec {A B} (arr : list A) (value : B) (comp : A -> B -> bool) :
  partitioned arr value comp ->
  forall fuel first len,
    (len <= fuel)%nat -> (first + len <= length arr)%nat ->
    (forall i a, (i < first)%nat -> arr !! i = Some a -> comp a value = true) ->
    (forall i a, (first + len <= i)%nat -> arr !! i = Some a -> comp a value = false) ->
    let p := lower_bound_loop arr value comp fuel first len in
    (first <= p <= first + len)%nat /\
    (forall i a, (i < p)%nat -> arr !! i = Some a -> comp a value = true) /\
    (forall i a, (p <= i)%nat -> arr !! i = Some a -> comp a value = false).
Proof.
  intros Hpart. induction fuel as [|fuel IH]; intros first len Hfuel Hlen Hlow Hhigh.
  - simpl. assert (len = 0)%nat as -> by lia.
    split; [lia|]. split; [exact Hlow|]. intros i a Hi. apply Hhigh. lia.
  - intros p. subst p. rewrite lower_bound_loop_S. cbv zeta. destruct (0 <? len)%nat eqn:Epos.
    2:{ apply Nat.ltb_ge in Epos. assert (len = 0)%nat as -> by lia.
        split; [lia|]. split; [exact Hlow|]. intros i a Hi. apply Hhigh. lia. }
    apply Nat.ltb_lt in Epos.
    assert (Hhalf : (len / 2 < len)%nat) by (apply Nat.div_lt; lia).
    destruct (arr !! (first + len / 2)%nat) as [x|] eqn:Ex.
    2:{ apply lookup_ge_None in Ex. lia. }
    destruct (comp x value) eqn:Ec.
    + destruct (IH (first + len / 2 + 1)%nat (len - len / 2 - 1)%nat) as (Hp & Hb & Ha);
        [lia | lia | | | ].
      * intros i a Hi Hia. apply (Hpart i (first + len / 2)%nat a x); [lia | exact Hia | exact Ex | exact Ec].
      * intros i a Hi. apply Hhigh. lia.
      * split; [lia|]. split; [exact Hb | exact Ha].
    + destruct (IH first (len / 2)%nat) as (Hp & Hb & Ha); [lia | lia | exact Hlow | | ].
      * intros i a Hi Hia. destruct (comp a value) eqn:Eca; [|reflexivity].
        rewrite (Hpart (first + len / 2)%nat i x a) in Ec; [discriminate | lia | exact Ex | exact Hia | exact Eca].
      * split; [lia|]. split; [exact Hb | exact Ha].
Qed.

Lemma lower_bound_spec {A B} (arr : list A) (value : B) (comp : A -> B -> bool) :
  partitioned arr value comp ->
  let p := lower_bound arr value comp in
  (p <= length arr)%nat /\
  (forall i a, (i < p)%nat -> arr !! i = Some a -> comp a value = true) /\
  (forall i a, (p <= i)%nat -> arr !! i = Some a -> comp a value = false).
Proof.
  intros Hpart. unfold lower_bound.
  destruct (lower_bound_loop_spec arr value comp Hpart (length arr) 0%nat (length arr))
    as (Hp & Hb & Ha); [lia | lia | | | ].
  - intros i a Hi. lia.
  - intros i a Hi Hia. apply lookup_lt_Some in Hia. lia.
  - split; [lia|]. split; [exact Hb | exact Ha].
Qed.

Lemma lookup_map {A B} (f : A -> B) (l : list A) (i : nat) :
  map f l !! i = f <$> (l !! i).
Proof.
  revert i. induction l as [|x l IH]; intros [|i]; simpl; auto.
Qed.

Lemma In_lookup {A} (x : A) (l : list A) : In x l -> exists i, l !! i = Some x.
Proof. intros H. apply list_elem_of_In in H. now apply list_elem_of_lookup_1. Qed.

Lemma lookup_In {A} (x : A) (l : list A) (i : nat) : l !! i = Some x -> In x l.
Proof. intros H. apply list_elem_of_In. eapply list_elem_of_lookup_2. exact H. Qed.

(** A name of the sorted helper table is found by the binary search, which
    returns the address registered with it. *)
Lemma art_find_compiler_runtime_func_found (crt : list (string * Z)) (name : string) :
  names_sorted (map fst crt) -> In name (map fst crt) ->
  exists p addr,
    crt !! p = Some (name, addr) /\ art_find_compiler_runtime_func crt name = addr.
Proof.
  intros Hsorted Hin. unfold art_find_compiler_runtime_func.
  pose proof (lower_bound_spec (map fst crt) name CStringComparator
                (names_sorted_partitioned _ name Hsorted)) as (Hp & Hbelow & Habove).
  set (p := lower_bound (map fst crt) name CStringComparator) in *.
  apply In_lookup in Hin as [i Hi].
  assert (Hpi : (p <= i)%nat).
  { destruct (Nat.le_gt_cases p i) as [H|H]; [exact H|].
    apply (Hbelow i name H) in Hi. unfold CStringComparator in Hi.
    rewrite strcmp_refl in Hi. discriminate. }
  assert (Hlt : (p < length (map fst crt))%nat).
  { apply lookup_lt_Some in Hi. lia. }
  destruct (map fst crt !! p) as [found|] eqn:Hfound.
  2:{ apply lookup_ge_None in Hfound. lia. }
  assert (Hname : found = name).
  { apply strcmp_eq.
    pose proof (Habove p found (Nat.le_refl p) Hfound) as Hge.
    unfold CStringComparator in Hge. apply Z.ltb_ge in Hge.
    destruct (decide (p = i)) as [->|Hne].
    - rewrite Hi in Hfound. injection Hfound as <-. apply strcmp_refl.
    - pose proof (StronglySorted_lookup_le _ _ Hsorted p i found name
                    ltac:(lia) Hfound Hi) as Hle.
      simpl in Hle. lia. }
  subst found. rewrite lookup_map in Hfound. rewrite lookup_map.
  destruct (crt !! p) as [[n addr]|] eqn:Hentry; [|discriminate].
  simpl in Hfound. injection Hfound as ->. simpl.
  exists p, addr. split; [exact Hentry|].
  rewrite length_map in Hlt. rewrite length_map.
  apply Nat.ltb_lt in Hlt. rewrite Hlt, strcmp_refl. reflexivity.
Qed.

(** A name that is not in the helper table is not found there. *)
Lemma art_find_compiler_runtime_func_absent (crt : list (string * Z)) (name : string) :
  ~ In name (map fst crt) -> art_find_compiler_runtime_func crt name = NULL.
Proof.
  intros Hnot. unfold art_find_compiler_runtime_func.
  destruct (map fst crt !! lower_bound (map fst crt) name CStringComparator)
    as [found|] eqn:Hfound; [|reflexivity].
  destruct (map snd crt !! lower_bound (map fst crt) name CStringComparator)
    as [func|]; [|reflexivity].
  destruct (strcmp found name =? 0) eqn:E.
  - apply Z.eqb_eq, strcmp_eq in E. subst found.
    apply lookup_In in Hfound. contradiction.
  - now rewrite andb_false_r.
Qed.

Section LookupFacts.
Context `{OM : ObjectModel}.

(** The test of the linear scan holds exactly for an entry of that name and
    that length. *)
Lemma entry_test_iff (name : string) (entry : func_entry_t) :
  (strlen name =? entry_name_len entry)%nat && (strcmp name (entry_name entry) =? 0) = true
  <-> entry_name_len entry = strlen name /\ entry_name entry = name.
Proof.
  rewrite andb_true_iff, Nat.eqb_eq, Z.eqb_eq, strcmp_eq_iff. intuition congruence.
Qed.

Lemma runtime_support_func_loop_spec (name : string) (w : World) (tab : list func_entry_t) :
  (exists before entry after,
      tab = before ++ entry :: after /\
      entry_name entry = name /\ entry_name_len entry = strlen name /\
      Forall (fun e => ~ (entry_name_len e = strlen name /\ entry_name e = name)) before /\
      runtime_support_func_loop tab name (strlen name) w = Returns (entry_addr entry) w) \/
  (Forall (fun e => ~ (entry_name_len e = strlen name /\ entry_name e = name)) tab /\
   runtime_support_func_loop tab name (strlen name) w
     = Aborts ("Error: Can't find symbol " +:+ name)).
Proof.
  induction tab as [|e tab IH]; simpl.
  - right. split; [constructor | reflexivity].
  - destruct ((strlen name =? entry_name_len e)%nat && (strcmp name (entry_name e) =? 0))
      eqn:Etest.
    + apply entry_test_iff in Etest as [Hlen Hname].
      left. exists [], e, tab. repeat split; auto.
    + assert (Hno : ~ (entry_name_len e = strlen name /\ entry_name e = name)).
      { intros H. apply entry_test_iff in H. congruence. }
      destruct IH as [(before & entry & after & -> & Hn & Hl & Hb & Hrun)|[Hall Hrun]].
      * left. exists (e :: before), entry, after. repeat split; auto.
      * right. split; [constructor; assumption | exact Hrun].
Qed.

(** C3.  Runtime-symbol lookup searches the sorted helper table first: a
    name in it yields the address registered with it there.  A name that is
    not in the helper table is looked for in the entry-point table from the
    front, and the first entry equal to it in length and content yields its
    address.  A name in neither table makes the lookup fatal: the process
    aborts and nothing is returned. *)
Theorem art_find_runtime_support_func_spec
  (COMPILER_RUNTIME_FUNC_LIST RUNTIME_SUPPORT_FUNC_LIST : list (string * Z))
  (context : Z) (name : string) (w : World) :
  let lookup := art_find_runtime_support_func COMPILER_RUNTIME_FUNC_LIST
                                              RUNTIME_SUPPORT_FUNC_LIST context name w in
  (names_sorted (map fst COMPILER_RUNTIME_FUNC_LIST) ->
   Forall (fun entry => snd entry <> NULL) COMPILER_RUNTIME_FUNC_LIST ->
   In name (map fst COMPILER_RUNTIME_FUNC_LIST) ->
   exists addr, In (name, addr) COMPILER_RUNTIME_FUNC_LIST /\ lookup = Returns addr w) /\
  (~ In name (map fst COMPILER_RUNTIME_FUNC_LIST) ->
   In name (map fst RUNTIME_SUPPORT_FUNC_LIST) ->
   exists before entry after,
     map DEFINE_ENTRY RUNTIME_SUPPORT_FUNC_LIST = before ++ entry :: after /\
     entry_name entry = name /\ entry_name_len entry = strlen name /\
     Forall (fun e => entry_name e <> name) before /\
     lookup = Returns (entry_addr entry) w) /\
  (~ In name (map fst COMPILER_RUNTIME_FUNC_LIST) ->
   ~ In name (map fst RUNTIME_SUPPORT_FUNC_LIST) ->
   lookup = Aborts ("Error: Can't find symbol " +:+ name)).
Proof.
  intros lookup. subst lookup. unfold art_find_runtime_support_func.
  assert (Hwf : Forall (fun e => entry_name_len e = strlen (entry_name e))
                       (map DEFINE_ENTRY RUNTIME_SUPPORT_FUNC_LIST)).
  { apply List.Forall_forall. intros e He. apply in_map_iff in He as (x & <- & _).
    reflexivity. }
  assert (Hnames : map entry_name (map DEFINE_ENTRY RUNTIME_SUPPORT_FUNC_LIST)
                   = map fst RUNTIME_SUPPORT_FUNC_LIST).
  { rewrite map_map. reflexivity. }
  split; [|split].
  - intros Hsorted Hnonnull Hin.
    destruct (art_find_compiler_runtime_func_found _ _ Hsorted Hin)
      as (p & addr & Hentry & Hfind).
    exists addr. split; [eapply lookup_In; exact Hentry|].
    rewrite Hfind.
    assert (Hne : addr <> NULL).
    { rewrite List.Forall_forall in Hnonnull.
      apply (Hnonnull (name, addr)). eapply lookup_In. exact Hentry. }
    apply Z.eqb_neq in Hne. rewrite Hne. reflexivity.
  - intros Habsent Hin.
    rewrite (art_find_compiler_runtime_func_absent _ _ Habsent). simpl negb. cbv iota.
    destruct (runtime_support_func_loop_spec name w
                (map DEFINE_ENTRY RUNTIME_SUPPORT_FUNC_LIST))
      as [(before & entry & after & Heq & Hn & Hl & Hb & Hrun)|[Hall _]].
    + exists before, entry, after. repeat split; auto.
      rewrite Heq in Hwf. apply Forall_app in Hwf as [Hwf _].
      rewrite List.Forall_forall in *. intros e He Hname.
      apply (Hb e He). split; [|exact Hname].
      rewrite (Hwf e He). now rewrite Hname.
    + exfalso. rewrite <- Hnames in Hin. apply in_map_iff in Hin as (e & Hname & He).
      rewrite List.Forall_forall in Hall, Hwf. apply (Hall e He).
      split; [|exact Hname]. rewrite (Hwf e He). now rewrite Hname.
  - intros Habsent Hnot.
    rewrite (art_find_compiler_runtime_func_absent _ _ Habsent). simpl negb. cbv iota.
    destruct (runtime_support_func_loop_spec name w
                (map DEFINE_ENTRY RUNTIME_SUPPORT_FUNC_LIST))
      as [(before & entry & after & Heq & Hn & Hl & Hb & Hrun)|[_ Hrun]].
    + exfalso. apply Hnot. rewrite <- Hnames, Heq, map_app. simpl.
      apply in_or_app. right. left. exact Hn.
    + exact Hrun.
Qed.

End LookupFacts.

(** ** The cached slow path honours the contract of the slow path *)

Section CachedContract.
Context `{OM : ObjectModel} `{CL : !ClassLinker}.

Lemma cached_FindFieldFromCode_contract (field_idx : Z) (referrer : Method)
  (is_static is_primitive is_set : bool) (expected_size : Z) (w w' : World) :
  cached_FindFieldFromCode field_idx referrer is_static is_primitive is_set expected_size w
    = Returns None w' ->
  IsExceptionPending (self w') = true.
Proof.
  unfold cached_FindFieldFromCode.
  destruct (ResolveField referrer field_idx) as [f|].
  - destruct (CheckFieldAccess f referrer is_static is_primitive is_set expected_size).
    + cbv [bind modify ret]. discriminate.
    + cbv [bind modify ret ThrowNewException SetException]. intros [= <-]. reflexivity.
  - cbv [bind modify ret ThrowNewException SetException]. intros [= <-]. reflexivity.
Qed.

End CachedContract.

(** * Further properties of the entry points *)

(** ** Method resolution *)

Section MethodFacts.
Context `{OM : ObjectModel} `{RS : !RuntimeSupport}.

(** X1.  FindMethodHelper returns null only after both paths have missed and
    with an exception pending; when the slow path returns null without one,
    the CHECK aborts the process. *)
Theorem FindMethodHelper_null_result (method_idx : Z) (this_object : option Object)
  (caller_method : Method) (access_check : bool) (type : InvokeType) (w : World) :
  (forall w',
      FindMethodHelper method_idx this_object caller_method access_check type w
        = Returns None w' ->
      FindMethodFast method_idx this_object caller_method access_check type w = None /\
      FindMethodFromCode method_idx this_object caller_method access_check type w
        = Returns None w' /\
      IsExceptionPending (self w') = true) /\
  (forall w1,
      FindMethodFast method_idx this_object caller_method access_check type w = None ->
      FindMethodFromCode method_idx this_object caller_method access_check type w
        = Returns None w1 ->
      IsExceptionPending (self w1) = false ->
      FindMethodHelper method_idx this_object caller_method access_check type w
        = Aborts "Check failed: Thread::Current()->IsExceptionPending()").
Proof.
  unfold FindMethodHelper. rewrite (bind_Returns get _ w w w) by reflexivity.
  split.
  - intros w'.
    destruct (FindMethodFast method_idx this_object caller_method access_check type w)
      as [m|]; [unfold ret; discriminate|].
    unfold bind at 1.
    destruct (FindMethodFromCode method_idx this_object caller_method access_check type w)
      as [[m|] w1| |]; try (unfold ret; discriminate).
    rewrite (bind_Returns get _ w1 w1 w1) by reflexivity.
    unfold CHECK. destruct (IsExceptionPending (self w1)) eqn:Hp.
    + cbv [bind ret]. intros [= <-]. auto.
    + cbv [bind LOG_FATAL]. discriminate.
  - intros w1 Hfast Hslow Hp. rewrite Hfast. unfold bind at 1. rewrite Hslow.
    rewrite (bind_Returns get _ w1 w1 w1) by reflexivity.
    unfold CHECK. rewrite Hp. reflexivity.
Qed.

(** X2.  FindMethodHelper returns a method exactly when the fast path finds
    it, the world then being untouched, or the fast path misses and the slow
    path finds it. *)
Theorem FindMethodHelper_success (method_idx : Z) (this_object : option Object)
  (caller_method : Method) (access_check : bool) (type : InvokeType)
  (w w' : World) (m : Method) :
  FindMethodHelper method_idx this_object caller_method access_check type w
    = Returns (Some m) w'
  <->
  (FindMethodFast method_idx this_object caller_method access_check type w = Some m /\
   w' = w) \/
  (FindMethodFast method_idx this_object caller_method access_check type w = None /\
   FindMethodFromCode method_idx this_object caller_method access_check type w
     = Returns (Some m) w').
Proof.
  unfold FindMethodHelper. rewrite (bind_Returns get _ w w w) by reflexivity.
  destruct (FindMethodFast method_idx this_object caller_method access_check type w)
    as [m0|].
  - unfold ret. split.
    + intros [= -> ->]. left. auto.
    + intros [[[= ->] ->]|[H _]]; [reflexivity | discriminate].
  - unfold bind at 1.
    destruct (FindMethodFromCode method_idx this_object caller_method access_check type w)
      as [[m0|] w1| |].
    + unfold ret. split.
      * intros [= -> ->]. right. auto.
      * intros [[H _]|[_ [= -> ->]]]; [discriminate | reflexivity].
    + rewrite (bind_Returns get _ w1 w1 w1) by reflexivity.
      unfold CHECK. destruct (IsExceptionPending (self w1));
        cbv [bind ret LOG_FATAL]; split; try discriminate;
        intros [[H _]|[_ H]]; discriminate.
    + split; [discriminate|]. intros [[H _]|[_ H]]; discriminate.
    + split; [discriminate|]. intros [[H _]|[_ H]]; discriminate.
Qed.

End MethodFacts.

(** ** Field access: failures *)

Section FieldFailureFacts.
Context `{OM : ObjectModel} `{RS : !RuntimeSupport}.

Ltac prove_failures :=
  unfold fails_only_as_slow_path; intros w;
  match goal with
  | |- context [bind get _ ?w] => rewrite (bind_Returns get _ w w w) by reflexivity
  end;
  match goal with
  | |- context [match ?fast with Some _ => _ | None => _ end] =>
      destruct fast as [f|] eqn:Hfast
  end;
  [ cbv [bind modify ret];
    split; [|intros msg]; (split; [discriminate | intros [H _]; discriminate])
  | cbv [bind modify ret get];
    match goal with
    | |- context [match ?slow with Returns _ _ => _ | Aborts _ => _ | Faults => _ end] =>
        destruct slow as [[f|] w1|msg0|] eqn:Hslow
    end;
    (split; [|intros msg]);
    (split; [ intros H; first [discriminate H | split; [reflexivity | congruence]]
            | intros [_ H]; first [discriminate H | congruence] ]) ].

(** X17.  The twelve field entry points have no failure of their own: each
    faults or aborts only when its fast path misses and its slow path faults
    or aborts, and then in the same way. *)
Theorem field_entry_points_failures
  (field_idx : Z) (referrer : Method) (obj : option Object) :
  (forall new_value,
      fails_only_as_slow_path (art_set32_static_from_code field_idx referrer new_value)
        (FindFieldFast field_idx referrer true true sizeof_uint32_t)
        (FindFieldFromCode field_idx referrer true true true sizeof_uint32_t)) /\
  (forall new_value,
      fails_only_as_slow_path (art_set64_static_from_code field_idx referrer new_value)
        (FindFieldFast field_idx referrer true true sizeof_uint64_t)
        (FindFieldFromCode field_idx referrer true true true sizeof_uint64_t)) /\
  (forall new_value,
      fails_only_as_slow_path (art_set_obj_static_from_code field_idx referrer new_value)
        (FindFieldFast field_idx referrer false true sizeof_Object_ptr)
        (FindFieldFromCode field_idx referrer true false true sizeof_Object_ptr)) /\
  (forall new_value,
      fails_only_as_slow_path
        (art_set32_instance_from_code field_idx referrer obj new_value)
        (FindFieldFast field_idx referrer true true sizeof_uint32_t)
        (FindFieldFromCode field_idx referrer false true true sizeof_uint32_t)) /\
  (forall new_value,
      fails_only_as_slow_path
        (art_set64_instance_from_code field_idx referrer obj new_value)
        (FindFieldFast field_idx referrer true true sizeof_uint64_t)
        (FindFieldFromCode field_idx referrer false true true sizeof_uint64_t)) /\
  (forall new_value,
      fails_only_as_slow_path
        (art_set_obj_instance_from_code field_idx referrer obj new_value)
        (FindFieldFast field_idx referrer false true sizeof_Object_ptr)
        (FindFieldFromCode field_idx referrer false false true sizeof_Object_ptr)) /\
  fails_only_as_slow_path (art_get32_static_from_code field_idx referrer)
    (FindFieldFast field_idx referrer true false sizeof_uint32_t)
    (FindFieldFromCode field_idx referrer true true false sizeof_uint32_t) /\
  fails_only_as_slow_path (art_get64_static_from_code field_idx referrer)
    (FindFieldFast field_idx referrer true false sizeof_uint64_t)
    (FindFieldFromCode field_idx referrer true true false sizeof_uint64_t) /\
  fails_only_as_slow_path (art_get_obj_static_from_code field_idx referrer)
    (FindFieldFast field_idx referrer false false sizeof_Object_ptr)
    (FindFieldFromCode field_idx referrer true false false sizeof_Object_ptr) /\
  fails_only_as_slow_path (art_get32_instance_from_code field_idx referrer obj)
    (FindFieldFast field_idx referrer true false sizeof_uint32_t)
    (FindFieldFromCode field_idx referrer false true false sizeof_uint32_t) /\
  fails_only_as_slow_path (art_get64_instance_from_code field_idx referrer obj)
    (FindFieldFast field_idx referrer true false sizeof_uint64_t)
    (FindFieldFromCode field_idx referrer false true false sizeof_uint64_t) /\
  fails_only_as_slow_path (art_get_obj_instance_from_code field_idx referrer obj)
    (FindFieldFast field_idx referrer false false sizeof_Object_ptr)
    (FindFieldFromCode field_idx referrer false false false sizeof_Object_ptr).
Proof.
  repeat match goal with |- _ /\ _ => split end;
    try match goal with |- forall _, _ => intros new_value end.
  - unfold art_set32_static_from_code. prove_failures.
  - unfold art_set64_static_from_code. prove_failures.
  - unfold art_set_obj_static_from_code. prove_failures.
  - unfold art_set32_instance_from_code. prove_failures.
  - unfold art_set64_instance_from_code. prove_failures.
  - unfold art_set_obj_instance_from_code. prove_failures.
  - unfold art_get32_static_from_code. prove_failures.
  - unfold art_get64_static_from_code. prove_failures.
  - unfold art_get_obj_static_from_code. prove_failures.
  - unfold art_get32_instance_from_code. prove_failures.
  - unfold art_get64_instance_from_code. prove_failures.
  - unfold art_get_obj_instance_from_code. prove_failures.
Qed.

End FieldFailureFacts.

(** ** Catch-block search, continued *)

Section CatchSearchFacts.
Context `{OM : ObjectModel}.

Lemma log_all_log_all (es es' : list Event) (w : World) :
  log_all es' (log_all es w) = log_all (es ++ es') w.
Proof. unfold log_all. simpl. now rewrite <- app_assoc. Qed.

Lemma find_catch_block_loop_log (m : Method) (et : Klass) (it : list Z) :
  forall (k : Z) (w : World),
    exists r es,
      find_catch_block_loop m et it k w = Returns r (log_all es w) /\
      (length es <= length it)%nat /\ Forall is_warning es.
Proof.
  induction it as [|x it IH]; intros k w; simpl find_catch_block_loop.
  - exists (-1), []. rewrite log_all_nil. repeat split; auto.
  - destruct (x =? kDexNoIndex16).
    { exists k, []. rewrite log_all_nil. repeat split; simpl; auto; lia. }
    rewrite (bind_Returns get _ w w w) by reflexivity.
    destruct (GetDexCacheResolvedType (heap w) m x) as [declared|].
    + destruct (IsAssignableFrom declared et).
      { exists k, []. rewrite log_all_nil. repeat split; simpl; auto; lia. }
      destruct (IH (to_int32 (k + 1)) w) as (r & es & Hrun & Hlen & Hall).
      exists r, es. repeat split; simpl; auto; lia.
    + unfold LOG_WARNING.
      rewrite (bind_Returns _ _ w (emit (unresolved_warning m x) w) tt) by reflexivity.
      destruct (IH (to_int32 (k + 1)) (emit (unresolved_warning m x) w))
        as (r & es & Hrun & Hlen & Hall).
      exists r, (unresolved_warning m x :: es). rewrite Hrun, log_all_emit.
      repeat split; simpl; [lia|]. constructor; [|exact Hall].
      eexists. reflexivity.
Qed.

Lemma find_catch_block_loop_prefix (m : Method) (et : Klass) (l1 l2 : list Z) :
  forall (k : Z) (w w' : World) (r : Z),
    find_catch_block_loop m et l1 k w = Returns r w' -> r <> -1 ->
    find_catch_block_loop m et (l1 ++ l2) k w = Returns r w'.
Proof.
  induction l1 as [|x l1 IH]; intros k w w' r; simpl.
  - unfold ret. intros [= <- <-] Hr. contradiction.
  - destruct (x =? kDexNoIndex16); [auto|].
    rewrite !(bind_Returns get _ w w w) by reflexivity.
    destruct (GetDexCacheResolvedType (heap w) m x) as [declared|].
    + destruct (IsAssignableFrom declared et); [auto|]. apply IH.
    + unfold LOG_WARNING.
      rewrite !(bind_Returns _ _ w (emit (unresolved_warning m x) w) tt) by reflexivity.
      apply IH.
Qed.

(** X3.  With an exception pending, what catch-block search returns is -1
    or an index into the handler table of the method for the dex pc, and
    the entry at a returned index matches the pending exception. *)
Theorem art_find_catch_block_from_code_range
  (current_method : Method) (dex_pc : Z) (w : World) (e : Throwable)
  (Hpending : GetException (self w) = Some e)
  (Hsize : Z.of_nat (length (CatchHandlerIterator current_method dex_pc)) < 2 ^ 31) :
  exists r w',
    art_find_catch_block_from_code current_method dex_pc w = Returns r w' /\
    -1 <= r < Z.of_nat (length (CatchHandlerIterator current_method dex_pc)) /\
    (r <> -1 ->
     exists x,
       CatchHandlerIterator current_method dex_pc !! Z.to_nat r = Some x /\
       handler_matches (heap w) current_method (Throwable_GetClass e) x = true).
Proof.
  unfold art_find_catch_block_from_code.
  rewrite (bind_Returns get _ w w w) by reflexivity.
  rewrite Hpending. unfold deref.
  rewrite (bind_Returns _ _ w w e) by reflexivity.
  destruct (find_catch_block_loop_spec current_method (Throwable_GetClass e)
              (CatchHandlerIterator current_method dex_pc) 0 w)
    as (r & n & Hrun & _ & Hres); [lia|].
  eexists. eexists. split; [exact Hrun|].
  destruct Hres as [[-> ->]|[-> (x & Hx & Hm)]].
  - split; [lia|]. intros H. contradiction.
  - pose proof (lookup_lt_Some _ _ _ Hx) as Hlt. simpl. split; [lia|].
    intros _. exists x. rewrite Nat2Z.id. auto.
Qed.

(** X4.  Without a pending exception catch-block search dereferences null.
    With one it returns, and all it does to the world is append warnings to
    the log, at most one per table entry: the pending exception, the rest of
    the thread, the heap and the resolution caches are as before. *)
Theorem art_find_catch_block_from_code_effects
  (current_method : Method) (dex_pc : Z) (w : World) :
  (GetException (self w) = None ->
   art_find_catch_block_from_code current_method dex_pc w = Faults) /\
  (forall e, GetException (self w) = Some e ->
   exists r w' es,
     art_find_catch_block_from_code current_method dex_pc w = Returns r w' /\
     self w' = self w /\ heap w' = heap w /\
     resolved_fields_ w' = resolved_fields_ w /\
     resolved_methods_ w' = resolved_methods_ w /\
     events w' = events w ++ es /\
     Forall is_warning es /\
     (length es <= length (CatchHandlerIterator current_method dex_pc))%nat).
Proof.
  unfold art_find_catch_block_from_code.
  rewrite (bind_Returns get _ w w w) by reflexivity.
  split.
  - intros ->. reflexivity.
  - intros e ->. unfold deref.
    rewrite (bind_Returns _ _ w w e) by reflexivity.
    destruct (find_catch_block_loop_log current_method (Throwable_GetClass e)
                (CatchHandlerIterator current_method dex_pc) 0 w)
      as (r & es & Hrun & Hlen & Hall).
    exists r, (log_all es w), es. rewrite Hrun. repeat split; auto.
Qed.

(** X5.  Entries after the first match are never looked at: when the table
    for one dex pc extends the table for another and the search over the
    shorter table finds a handler, the search over the longer one returns
    the same index and leaves the same world. *)
Theorem art_find_catch_block_from_code_prefix
  (current_method : Method) (dex_pc1 dex_pc2 : Z) (extra : list Z)
  (w w' : World) (r : Z)
  (Hextends : CatchHandlerIterator current_method dex_pc2
              = CatchHandlerIterator current_method dex_pc1 ++ extra)
  (Hrun : art_find_catch_block_from_code current_method dex_pc1 w = Returns r w')
  (Hfound : r <> -1) :
  art_find_catch_block_from_code current_method dex_pc2 w = Returns r w'.
Proof.
  revert Hrun. unfold art_find_catch_block_from_code.
  rewrite !(bind_Returns get _ w w w) by reflexivity.
  destruct (GetException (self w)) as [e|]; [|discriminate].
  unfold deref. rewrite !(bind_Returns _ _ w w e) by reflexivity.
  rewrite Hextends. intros Hrun.
  now apply find_catch_block_loop_prefix.
Qed.

(** X6.  Throwing and then searching never dereferences null: after
    art_throw_exception_from_code, whatever its argument, catch-block search
    returns -1 or an index into the table, with the thrown exception still
    pending. *)
Theorem throw_then_find_catch_block
  (exception : option Object) (current_method : Method) (dex_pc : Z) (w : World)
  (Hsize : Z.of_nat (length (CatchHandlerIterator current_method dex_pc)) < 2 ^ 31) :
  exists r w',
    bind (art_throw_exception_from_code exception)
         (fun _ => art_find_catch_block_from_code current_method dex_pc) w
      = Returns r w' /\
    -1 <= r < Z.of_nat (length (CatchHandlerIterator current_method dex_pc)) /\
    GetException (self w') =
      Some (match exception with
            | None => NewException "Ljava/lang/NullPointerException;"
                                   (Some "throw with null exception"%string)
            | Some o => ThrownObject o
            end).
Proof.
  set (thrown := match exception with
                 | None => NewException "Ljava/lang/NullPointerException;"
                                        (Some "throw with null exception"%string)
                 | Some o => ThrownObject o
                 end).
  assert (Hthrow : exists w1, art_throw_exception_from_code exception w = Returns tt w1 /\
                              GetException (self w1) = Some thrown).
  { destruct exception; eexists; split; reflexivity. }
  destruct Hthrow as (w1 & Hthrow & Hpending).
  rewrite (bind_Returns _ _ w w1 tt Hthrow).
  unfold art_find_catch_block_from_code.
  rewrite (bind_Returns get _ w1 w1 w1) by reflexivity.
  rewrite Hpending. unfold deref.
  rewrite (bind_Returns _ _ w1 w1 thrown) by reflexivity.
  destruct (find_catch_block_loop_spec current_method (Throwable_GetClass thrown)
              (CatchHandlerIterator current_method dex_pc) 0 w1)
    as (r & n & Hrun & _ & Hres); [lia|].
  eexists. eexists. split; [exact Hrun|]. split.
  - destruct Hres as [[-> ->]|[-> (x & Hx & _)]]; [lia|].
    pose proof (lookup_lt_Some _ _ _ Hx). simpl. lia.
  - exact Hpending.
Qed.

(** X7.  A catch-all entry guarantees a handler: with one at position [i]
    of the table, catch-block search returns an index between 0 and [i]. *)
Theorem art_find_catch_block_from_code_catch_all
  (current_method : Method) (dex_pc : Z) (w : World) (e : Throwable) (i : nat)
  (Hpending : GetException (self w) = Some e)
  (Hsize : Z.of_nat (length (CatchHandlerIterator current_method dex_pc)) < 2 ^ 31)
  (Hcatch_all : CatchHandlerIterator current_method dex_pc !! i = Some kDexNoIndex16) :
  exists r w',
    art_find_catch_block_from_code current_method dex_pc w = Returns r w' /\
    0 <= r <= Z.of_nat i.
Proof.
  unfold art_find_catch_block_from_code.
  rewrite (bind_Returns get _ w w w) by reflexivity.
  rewrite Hpending. unfold deref.
  rewrite (bind_Returns _ _ w w e) by reflexivity.
  destruct (find_catch_block_loop_spec current_method (Throwable_GetClass e)
              (CatchHandlerIterator current_method dex_pc) 0 w)
    as (r & n & Hrun & Hnone & Hres); [lia|].
  assert (Hmatch : handler_matches (heap w) current_method (Throwable_GetClass e)
                                   kDexNoIndex16 = true).
  { unfold handler_matches. now rewrite Z.eqb_refl. }
  assert (Hle : (n <= i)%nat).
  { destruct (Nat.le_gt_cases n i) as [H|H]; [exact H|]. exfalso.
    assert (Hi : take n (CatchHandlerIterator current_method dex_pc) !! i
                 = Some kDexNoIndex16).
    { rewrite lookup_take. destruct (decide (i < n)%nat); [exact Hcatch_all | lia]. }
    apply (Forall_lookup_1 _ _ _ _ Hnone) in Hi. simpl in Hi. congruence. }
  eexists. eexists. split; [exact Hrun|].
  destruct Hres as [[-> ->]|[-> _]].
  - apply lookup_lt_Some in Hcatch_all. lia.
  - simpl. lia.
Qed.

End CatchSearchFacts.

(** ** Throwing, continued *)

Section ThrowFacts.
Context `{OM : ObjectModel}.

Lemma append_nil_r (a : string) : a +:+ "" = a.
Proof.
  induction a as [|x a IH]; [reflexivity|].
  rewrite append_cons. now rewrite IH.
Qed.

(** X13.  The array-bounds throw installs an
    ArrayIndexOutOfBoundsException whose message gives the length and then
    the index, in decimal, and leaves the heap alone. *)
Theorem art_throw_array_bounds_from_code_message (length index : Z) (w : World) :
  exists w',
    art_throw_array_bounds_from_code length index w = Returns tt w' /\
    exception_ (self w') =
      Some (NewException "Ljava/lang/ArrayIndexOutOfBoundsException;"
              (Some ("length=" +:+ pretty length +:+ "; index=" +:+ pretty index))) /\
    heap w' = heap w.
Proof.
  unfold art_throw_array_bounds_from_code, ThrowNewExceptionF.
  eexists. split; [apply ThrowNewException_run|]. split; [|reflexivity].
  simpl StringPrintf. rewrite append_nil_r. reflexivity.
Qed.

(** X14.  After each of the throw entry points the pending-exception query
    returns true. *)
Theorem throw_entry_points_leave_exception_pending
  (length index : Z) (exception : option Object) (w : World) :
  raises art_throw_div_zero_from_code w /\
  raises (art_throw_array_bounds_from_code length index) w /\
  raises art_throw_null_pointer_exception_from_code w /\
  raises art_throw_stack_overflow_from_code w /\
  raises (art_throw_exception_from_code exception) w.
Proof.
  unfold raises. repeat split.
  - eexists. split; reflexivity.
  - eexists. split; [apply ThrowNewException_run | reflexivity].
  - eexists. split; reflexivity.
  - unfold art_throw_stack_overflow_from_code.
    rewrite (bind_Returns get _ w w w) by reflexivity.
    destruct (method_tracing_active_ w); eexists;
      (split; [cbv [bind modify get ret SetStackEndForStackOverflow ThrowNewExceptionF
                    ThrowNewException SetException ResetDefaultStackEnd]; reflexivity
              | reflexivity]).
  - destruct exception; eexists; split; reflexivity.
Qed.

End ThrowFacts.

(** ** Type checking, continued *)

Section ArrayStoreFacts.
Context `{OM : ObjectModel}.

(** X15.  For a non-null element and an array whose class has a component
    type, the array-store check leaves the world as it was exactly when the
    assignability query returns 1 for the component type and the class of
    the element. *)
Theorem art_check_put_array_element_agrees_with_query
  (e a : Object) (component_type : Klass) (w : World)
  (Hcomponent : GetComponentType (GetClass a) = Some component_type) :
  exists w',
    art_check_put_array_element_from_code (Some e) (Some a) w = Returns tt w' /\
    (w' = w <->
     art_is_assignable_from_code component_type (GetClass e) w = Returns 1 w).
Proof.
  unfold art_check_put_array_element_from_code, art_is_assignable_from_code, deref.
  rewrite (bind_Returns _ _ w w a) by reflexivity.
  rewrite Hcomponent. rewrite (bind_Returns _ _ w w component_type) by reflexivity.
  destruct (IsAssignableFrom component_type (GetClass e)); simpl negb; cbv iota.
  - exists w. split; [reflexivity|]. split; reflexivity.
  - unfold ThrowNewExceptionF. eexists. split; [apply ThrowNewException_run|]. split.
    + intros H. exfalso. revert H.
      apply (ThrowNewException_changes _ _ _ _ (ThrowNewException_run _ _ _)).
    + unfold ret. discriminate.
Qed.

(** X16.  What the array-store check does not guard: with a non-null
    element it dereferences the array, so a null array faults, and so does
    an array whose class has no component type. *)
Theorem art_check_put_array_element_faults (e : Object) (w : World) :
  art_check_put_array_element_from_code (Some e) None w = Faults /\
  (forall a, GetComponentType (GetClass a) = None ->
             art_check_put_array_element_from_code (Some e) (Some a) w = Faults).
Proof.
  split; [reflexivity|]. intros a H.
  unfold art_check_put_array_element_from_code, deref.
  rewrite (bind_Returns _ _ w w a) by reflexivity.
  rewrite H. reflexivity.
Qed.

End ArrayStoreFacts.

(** ** The runtime symbol table, continued *)

Lemma strcmp_antisym (a b : string) : strcmp a b < 0 <-> 0 < strcmp b a.
Proof.
  revert b. induction a as [|x a IH]; intros [|y b]; simpl; try lia.
  destruct (byte x =? byte y) eqn:Exy, (byte y =? byte x) eqn:Eyx;
    rewrite ?Z.eqb_eq, ?Z.eqb_neq in *; try lia.
  apply IH.
Qed.

(** X8.  CStringComparator is a strict total order on names: no name is
    below itself, it is asymmetric and transitive, and two names neither of
    which is below the other are the same name. *)
Theorem CStringComparator_strict_total_order (a b c : string) :
  CStringComparator a a = false /\
  (CStringComparator a b = true -> CStringComparator b a = false) /\
  (CStringComparator a b = true -> CStringComparator b c = true ->
   CStringComparator a c = true) /\
  (CStringComparator a b = false -> CStringComparator b a = false -> a = b).
Proof.
  unfold CStringComparator. rewrite !Z.ltb_lt, !Z.ltb_ge.
  pose proof (strcmp_antisym a b) as Hab. pose proof (strcmp_antisym b a) as Hba.
  split; [rewrite strcmp_refl; lia|]. split; [lia|]. split.
  - intros H1 H2. apply (strcmp_trans a b c); lia.
  - intros H1 H2. apply strcmp_eq. lia.
Qed.

Lemma lower_bound_loop_zero {A B} (arr : list A) (value : B) (comp : A -> B -> bool)
  (fuel first : nat) :
  lower_bound_loop arr value comp fuel first 0 = first.
Proof. destruct fuel; reflexivity. Qed.

Lemma lower_bound_within_loop {A B} (arr : list A) (value : B) (comp : A -> B -> bool) :
  forall budget fuel first len,
    (len < 2 ^ budget)%nat -> (first + len <= length arr)%nat -> (len <= fuel)%nat ->
    lower_bound_within arr value comp budget first len
    = Some (lower_bound_loop arr value comp fuel first len).
Proof.
  induction budget as [|budget IH]; intros fuel first len Hlen Hrange Hfuel.
  - simpl in Hlen. assert (len = 0)%nat as -> by lia.
    now rewrite lower_bound_loop_zero.
  - destruct len as [|len']; [now rewrite lower_bound_loop_zero|].
    destruct fuel as [|fuel]; [lia|].
    rewrite lower_bound_loop_S.
    change (lower_bound_within arr value comp (S budget) first (S len'))
      with (match arr !! (first + S len' / 2)%nat with
            | Some x =>
                if comp x value
                then lower_bound_within arr value comp budget
                       (first + S len' / 2 + 1)%nat (S len' - S len' / 2 - 1)%nat
                else lower_bound_within arr value comp budget first (S len' / 2)%nat
            | None => None
            end).
    replace (0 <? S len')%nat with true by reflexivity.
    rewrite Nat.pow_succ_r' in Hlen.
    pose proof (Nat.div_mod_eq (S len') 2) as Hdiv.
    pose proof (Nat.mod_upper_bound (S len') 2 ltac:(lia)) as Hmod.
    destruct (arr !! (first + S len' / 2)%nat) as [x|] eqn:Ex.
    2:{ apply lookup_ge_None in Ex. lia. }
    destruct (comp x value); apply IH; lia.
Qed.

(** X9.  The binary search exits within floor(log2 n) + 1 iterations, each
    with one comparison, for a table of n names: allowed any number of
    iterations above log2 n, the loop exits, and with the position that
    lower_bound returns. *)
Theorem lower_bound_logarithmic {A B} (arr : list A) (value : B) (comp : A -> B -> bool)
  (budget : nat) (Hbudget : (Nat.log2 (length arr) < budget)%nat) :
  lower_bound_within arr value comp budget 0 (length arr)
  = Some (lower_bound arr value comp).
Proof.
  unfold lower_bound. apply lower_bound_within_loop; [|lia|lia].
  destruct (length arr) as [|n].
  - pose proof (Nat.pow_nonzero 2 budget ltac:(lia)). lia.
  - pose proof (Nat.log2_spec (S n) ltac:(lia)) as [_ Hlog].
    pose proof (Nat.pow_le_mono_r 2 (S (Nat.log2 (S n))) budget ltac:(lia) ltac:(lia)).
    lia.
Qed.

(** What the helper-table search returns, when it is not NULL, is registered
    under the name asked for, whether or not the table is sorted. *)
Lemma art_find_compiler_runtime_func_sound (crt : list (string * Z)) (name : string) :
  art_find_compiler_runtime_func crt name <> NULL ->
  exists p, crt !! p = Some (name, art_find_compiler_runtime_func crt name).
Proof.
  unfold art_find_compiler_runtime_func.
  set (p := lower_bound (map fst crt) name CStringComparator).
  rewrite !lookup_map.
  destruct (crt !! p) as [[found func]|] eqn:Hentry; simpl; [|congruence].
  destruct ((p <? length (map fst crt))%nat && (strcmp found name =? 0)) eqn:E;
    [|congruence].
  apply andb_true_iff in E as [_ E]. apply Z.eqb_eq, strcmp_eq in E. subst found.
  intros _. exists p. exact Hentry.
Qed.

Section LookupMoreFacts.
Context `{OM : ObjectModel}.

Lemma runtime_support_func_loop_sound (rt : list (string * Z)) (name : string)
  (w w' : World) (addr : Z) :
  runtime_support_func_loop (map DEFINE_ENTRY rt) name (strlen name) w = Returns addr w' ->
  In (name, addr) rt /\ w' = w.
Proof.
  destruct (runtime_support_func_loop_spec name w (map DEFINE_ENTRY rt))
    as [(before & entry & after & Heq & Hn & _ & _ & Hrun)|[_ Hrun]];
    rewrite Hrun; [|discriminate].
  intros [= <- <-]. split; [|reflexivity].
  assert (Hin : In entry (map DEFINE_ENTRY rt)).
  { rewrite Heq. apply in_or_app. right. left. reflexivity. }
  apply in_map_iff in Hin as ([n a] & <- & Hin). simpl in Hn. subst n. exact Hin.
Qed.

(** X10.  Whatever the lookup returns is registered under the name asked
    for, in the helper table or in the entry-point table, and the lookup
    leaves the world alone; this needs neither table to be sorted. *)
Theorem art_find_runtime_support_func_sound
  (COMPILER_RUNTIME_FUNC_LIST RUNTIME_SUPPORT_FUNC_LIST : list (string * Z))
  (context : Z) (name : string) (w w' : World) (addr : Z)
  (Hrun : art_find_runtime_support_func COMPILER_RUNTIME_FUNC_LIST
            RUNTIME_SUPPORT_FUNC_LIST context name w = Returns addr w') :
  w' = w /\
  (In (name, addr) COMPILER_RUNTIME_FUNC_LIST \/ In (name, addr) RUNTIME_SUPPORT_FUNC_LIST).
Proof.
  revert Hrun. unfold art_find_runtime_support_func.
  destruct (art_find_compiler_runtime_func COMPILER_RUNTIME_FUNC_LIST name =? NULL) eqn:E;
    simpl negb; cbv iota.
  - intros Hrun. apply runtime_support_func_loop_sound in Hrun as [Hin ->]. auto.
  - apply Z.eqb_neq in E. unfold ret. intros [= <- <-]. split; [reflexivity|]. left.
    destruct (art_find_compiler_runtime_func_sound _ _ E) as [p Hp].
    eapply lookup_In. exact Hp.
Qed.

(** X11.  The lookup has no null answer: when the entry-point table holds
    no null address, it returns a non-null address or aborts the process. *)
Theorem art_find_runtime_support_func_never_null
  (COMPILER_RUNTIME_FUNC_LIST RUNTIME_SUPPORT_FUNC_LIST : list (string * Z))
  (context : Z) (name : string) (w : World)
  (Hnonnull : Forall (fun entry => snd entry <> NULL) RUNTIME_SUPPORT_FUNC_LIST) :
  (exists addr,
      art_find_runtime_support_func COMPILER_RUNTIME_FUNC_LIST
        RUNTIME_SUPPORT_FUNC_LIST context name w = Returns addr w /\
      addr <> NULL) \/
  art_find_runtime_support_func COMPILER_RUNTIME_FUNC_LIST
    RUNTIME_SUPPORT_FUNC_LIST context name w
  = Aborts ("Error: Can't find symbol " +:+ name).
Proof.
  unfold art_find_runtime_support_func.
  destruct (art_find_compiler_runtime_func COMPILER_RUNTIME_FUNC_LIST name =? NULL) eqn:E;
    simpl negb; cbv iota.
  - destruct (runtime_support_func_loop_spec name w
                (map DEFINE_ENTRY RUNTIME_SUPPORT_FUNC_LIST))
      as [(before & entry & after & Heq & _ & _ & _ & Hrun)|[_ Hrun]]; [|now right].
    left. exists (entry_addr entry). split; [exact Hrun|].
    assert (Hin : In entry (map DEFINE_ENTRY RUNTIME_SUPPORT_FUNC_LIST)).
    { rewrite Heq. apply in_or_app. right. left. reflexivity. }
    apply in_map_iff in Hin as (x & <- & Hin).
    rewrite List.Forall_forall in Hnonnull. exact (Hnonnull x Hin).
  - left. eexists. split; [reflexivity|]. now apply Z.eqb_neq.
Qed.

End LookupMoreFacts.

(** X12.  In a sorted helper table that registers a name more than once,
    the binary search answers with the first registration. *)
Theorem art_find_compiler_runtime_func_first (crt : list (string * Z)) (name : string)
  (i : nat) (a : Z)
  (Hsorted : names_sorted (map fst crt))
  (Hentry : crt !! i = Some (name, a)) :
  exists p addr,
    (p <= i)%nat /\ crt !! p = Some (name, addr) /\
    (forall j n x, (j < p)%nat -> crt !! j = Some (n, x) -> n <> name) /\
    art_find_compiler_runtime_func crt name = addr.
Proof.
  pose proof (lower_bound_spec (map fst crt) name CStringComparator
                (names_sorted_partitioned _ name Hsorted)) as (Hp & Hbelow & Habove).
  unfold art_find_compiler_runtime_func.
  set (p := lower_bound (map fst crt) name CStringComparator) in *.
  assert (Hi : map fst crt !! i = Some name) by (rewrite lookup_map, Hentry; reflexivity).
  assert (Hpi : (p <= i)%nat).
  { destruct (Nat.le_gt_cases p i) as [H|H]; [exact H|].
    apply (Hbelow i name H) in Hi. unfold CStringComparator in Hi.
    rewrite strcmp_refl in Hi. discriminate. }
  assert (Hlt : (p < length (map fst crt))%nat).
  { apply lookup_lt_Some in Hi. lia. }
  destruct (map fst crt !! p) as [found|] eqn:Hfound.
  2:{ apply lookup_ge_None in Hfound. lia. }
  assert (Hname : found = name).
  { apply strcmp_eq.
    pose proof (Habove p found (Nat.le_refl p) Hfound) as Hge.
    unfold CStringComparator in Hge. apply Z.ltb_ge in Hge.
    destruct (decide (p = i)) as [Heq|Hne].
    - rewrite Heq, Hi in Hfound. injection Hfound as <-. apply strcmp_refl.
    - pose proof (StronglySorted_lookup_le _ _ Hsorted p i found name
                    ltac:(lia) Hfound Hi) as Hle.
      simpl in Hle. lia. }
  subst found. rewrite lookup_map in Hfound. rewrite lookup_map.
  destruct (crt !! p) as [[n addr]|] eqn:Hp_entry; [|discriminate].
  simpl in Hfound. injection Hfound as ->. simpl.
  exists p, addr. split; [exact Hpi|]. split; [exact Hp_entry|]. split.
  - intros j n x Hj Hjx ->.
    assert (Hjn : map fst crt !! j = Some name) by (rewrite lookup_map, Hjx; reflexivity).
    apply (Hbelow j name Hj) in Hjn. unfold CStringComparator in Hjn.
    rewrite strcmp_refl in Hjn. discriminate.
  - apply Nat.ltb_lt in Hlt. rewrite Hlt, strcmp_refl. reflexivity.
Qed.

(** ** The concrete runtime: the statements above at work *)

Module DemoFacts.
Import Demo.

Lemma demo_assignable_refl (c : DemoClass) : demo_assignable c c = true.
Proof. destruct c; reflexivity. Qed.

Lemma demo_world_cached_consistent : cache_consistent demo_world_cached.
Proof.
  split; simpl.
  - intros referrer idx f H. apply lookup_singleton_Some in H as [[= <- <-] <-].
    reflexivity.
  - intros caller idx m H. apply lookup_singleton_Some in H as [[= <- <-] <-].
    reflexivity.
Qed.

Lemma demo_helper_table_sorted : names_sorted (map fst demo_helper_table).
Proof. repeat constructor; vm_compute; discriminate. Qed.

(** Catch search over the table of method 0, whose entry 0 declares an
    unrelated type and whose entry 1 is a catch-all, returns index 1. *)
Example catch_search_two_entries :
  art_find_catch_block_from_code 0%nat 0
    (demo_pending (NewException "Ljava/lang/ArithmeticException;" None))
  = Returns 1 (demo_pending (NewException "Ljava/lang/ArithmeticException;" None)).
Proof. reflexivity. Qed.

(** Over the table of method 1 the scan passes an unresolved entry, logs it,
    and stops at entry 1, which declares java.lang.Throwable. *)
Example catch_search_unresolved :
  art_find_catch_block_from_code 1%nat 0
    (demo_pending (NewException "Ljava/lang/ArithmeticException;" None))
  = Returns 1 (emit (EvLogWarning
                       "Unresolved exception class when finding catch block: 9")
                    (demo_pending (NewException "Ljava/lang/ArithmeticException;" None))).
Proof. reflexivity. Qed.

(** A pending java.lang.String-typed object finds no handler in method 2. *)
Example catch_search_none :
  art_find_catch_block_from_code 2%nat 0 (demo_pending (ThrownObject (JavaString, 1%nat)))
  = Returns (-1) (demo_pending (ThrownObject (JavaString, 1%nat))).
Proof. reflexivity. Qed.

Example lookup_helper :
  art_find_runtime_support_func demo_helper_table demo_entry_table 0 "__divdi3" demo_world
  = Returns 4100 demo_world.
Proof. reflexivity. Qed.

Example lookup_entry_point :
  art_find_runtime_support_func demo_helper_table demo_entry_table 0
    "art_lock_object_from_code" demo_world
  = Returns 8196 demo_world.
Proof. reflexivity. Qed.

Example lookup_unregistered :
  art_find_runtime_support_func demo_helper_table demo_entry_table 0 "art_nowhere" demo_world
  = Aborts "Error: Can't find symbol art_nowhere".
Proof. reflexivity. Qed.

(** A write through the slow path populates the cache, and the read that
    follows is served by the fast path and returns what was written. *)
Example write_then_read :
  exists w1,
    art_set32_instance_from_code 1 0%nat (Some (JavaString, 1%nat)) 42 demo_world
      = Returns 0 w1 /\
    FindFieldFast 1 0%nat true false sizeof_uint32_t w1 = Some 10%nat /\
    art_get32_instance_from_code 1 0%nat (Some (JavaString, 1%nat)) w1 = Returns 42 w1.
Proof. eexists. split; [reflexivity|]. split; reflexivity. Qed.

(** A read of a field that holds zero returns the same value as a failed
    read; only the pending exception tells them apart. *)
Example read_zero_or_failure :
  exists w_ok w_failed,
    art_get32_static_from_code 1 0%nat demo_world = Returns 0 w_ok /\
    IsExceptionPending (self w_ok) = false /\
    art_get32_static_from_code 2 0%nat demo_world = Returns 0 w_failed /\
    IsExceptionPending (self w_failed) = true.
Proof. eexists. eexists. repeat split; reflexivity. Qed.

Example div_zero_message :
  exists w',
    art_throw_div_zero_from_code demo_world = Returns tt w' /\
    exception_ (self w') =
      Some (NewException "Ljava/lang/ArithmeticException;" (Some "divide by zero"%string)).
Proof. eexists. split; reflexivity. Qed.

Example stack_overflow_message :
  exists w',
    art_throw_stack_overflow_from_code demo_world = Returns tt w' /\
    exception_ (self w') =
      Some (NewException "Ljava/lang/StackOverflowError;"
              (Some "stack size 1024kb; default stack size: 1024kb"%string)) /\
    stack_end_ (self w') = 8192.
Proof. eexists. split; [vm_compute; reflexivity|]. split; reflexivity. Qed.

Example cast_check_message :
  exists w',
    art_check_cast_from_code JavaString JavaThrowable demo_world = Returns tt w' /\
    exception_ (self w') =
      Some (NewException "Ljava/lang/ClassCastException;"
              (Some "java.lang.String cannot be cast to java.lang.Throwable"%string)).
Proof. eexists. split; reflexivity. Qed.

Lemma art_find_catch_block_from_code_witness :
  let w := demo_pending (NewException "Ljava/lang/ArithmeticException;" None) in
  let table := CatchHandlerIterator 1%nat 0 in
  let matches := handler_matches (heap w) 1%nat JavaArithmeticException in
  GetException (self w) = Some (NewException "Ljava/lang/ArithmeticException;" None) /\
  Z.of_nat (length table) < 2 ^ 31 /\
  exists r n,
    art_find_catch_block_from_code 1%nat 0 w
      = Returns r (log_all (scan_warnings (heap w) 1%nat (take n table)) w) /\
    Forall (fun x => matches x = false) (take n table) /\
    ((r = -1 /\ n = length table) \/
     (r = Z.of_nat n /\ exists x, table !! n = Some x /\ matches x = true)) /\
    (r = -1 <-> Forall (fun x => matches x = false) table).
Proof.
  intros w table matches.
  split; [reflexivity|]. split; [reflexivity|].
  apply (art_find_catch_block_from_code_spec (OM := demo_model) 1%nat 0 w
           (NewException "Ljava/lang/ArithmeticException;" None));
    reflexivity.
Defined.

Lemma fast_slow_resolution_equivalent_witness :
  cache_consistent demo_world_cached /\
  (forall m m' w',
      cached_FindMethodFast 1 (Some (JavaString, 1%nat)) 0%nat true kVirtual
                            demo_world_cached = Some m ->
      cached_FindMethodFromCode 1 (Some (JavaString, 1%nat)) 0%nat true kVirtual
                                demo_world_cached = Returns (Some m') w' ->
      m = m') /\
  (forall f f' w',
      cached_FindFieldFast 1 0%nat true true sizeof_uint32_t demo_world_cached = Some f ->
      cached_FindFieldFromCode 1 0%nat false true true sizeof_uint32_t demo_world_cached
        = Returns (Some f') w' ->
      f = f').
Proof.
  split; [exact demo_world_cached_consistent|].
  pose proof (fast_slow_resolution_equivalent demo_decode demo_world_cached
                demo_world_cached_consistent) as (Hfields & Hmethods & _).
  split.
  - intros m m' w'. apply Hmethods.
  - intros f f' w'. apply Hfields.
Defined.

Lemma art_find_runtime_support_func_witness :
  names_sorted (map fst demo_helper_table) /\
  Forall (fun entry => snd entry <> NULL) demo_helper_table /\
  In "__muldi3"%string (map fst demo_helper_table) /\
  exists addr,
    In ("__muldi3"%string, addr) demo_helper_table /\
    art_find_runtime_support_func demo_helper_table demo_entry_table 0 "__muldi3" demo_world
      = Returns addr demo_world.
Proof.
  assert (Hnonnull : Forall (fun entry => snd entry <> NULL) demo_helper_table).
  { repeat constructor; discriminate. }
  assert (Hin : In "__muldi3"%string (map fst demo_helper_table)).
  { simpl. auto. }
  split; [exact demo_helper_table_sorted|]. split; [exact Hnonnull|]. split; [exact Hin|].
  exact (proj1 (art_find_runtime_support_func_spec demo_helper_table demo_entry_table
                  0 "__muldi3" demo_world)
               demo_helper_table_sorted Hnonnull Hin).
Defined.

Lemma field_entry_points_status_witness :
  (forall field_idx referrer is_static is_primitive is_set expected_size w w',
      FindFieldFromCode field_idx referrer is_static is_primitive is_set expected_size w
        = Returns None w' ->
      IsExceptionPending (self w') = true) /\
  write_entry_point (art_set32_instance_from_code 1 0%nat (Some (JavaString, 1%nat)) 42)
    (FindFieldFast 1 0%nat true true sizeof_uint32_t)
    (FindFieldFromCode 1 0%nat false true true sizeof_uint32_t)
    (fun f => Set32 f (Some (JavaString, 1%nat)) 42) /\
  read_entry_point (art_get32_static_from_code 1 0%nat)
    (FindFieldFast 1 0%nat true false sizeof_uint32_t)
    (FindFieldFromCode 1 0%nat true true false sizeof_uint32_t)
    (fun f => Get32 f None) 0.
Proof.
  split; [exact cached_FindFieldFromCode_contract|].
  pose proof (field_entry_points_status cached_FindFieldFromCode_contract
                1 0%nat (Some (JavaString, 1%nat))) as H.
  split; [apply H | apply H].
Defined.

Lemma art_is_assignable_from_code_witness :
  StringArray = StringArray /\
  exists r,
    @art_is_assignable_from_code DemoMore.described_demo StringArray StringArray
      DemoMore.described_world = Returns r DemoMore.described_world /\
    r = 1.
Proof.
  split; [reflexivity|].
  destruct (proj2 (art_is_assignable_from_code_spec (OM := demo_model)
                     DemoMore.demo_describe DemoMore.demo_hierarchy DemoMore.demo_mixed
                     StringArray StringArray demo_world DemoMore.described_world))
    as (r & Hrun & _ & _ & Hsame).
  exists r. split; [exact Hrun | exact (Hsame eq_refl)].
Defined.

(** In the described demo runtime an array of strings can stand where an
    array of objects is required, and not the other way round. *)
Example described_demo_covariance :
  @art_is_assignable_from_code DemoMore.described_demo ObjectArray StringArray
    DemoMore.described_world = Returns 1 DemoMore.described_world /\
  @art_is_assignable_from_code DemoMore.described_demo StringArray ObjectArray
    DemoMore.described_world = Returns 0 DemoMore.described_world.
Proof. split; reflexivity. Qed.

Lemma art_check_cast_from_code_witness :
  IsAssignableFrom JavaString JavaThrowable = false /\
  exists msg w',
    art_check_cast_from_code JavaString JavaThrowable demo_world = Returns tt w' /\
    exception_ (self w') = Some (NewException "Ljava/lang/ClassCastException;" (Some msg)) /\
    contains (PrettyDescriptor JavaString) msg /\
    contains (PrettyDescriptor JavaThrowable) msg /\
    heap w' = heap demo_world /\ stack_end_ (self w') = stack_end_ (self demo_world).
Proof.
  split; [reflexivity|].
  exact (proj1 (proj2 (art_check_cast_from_code_spec JavaString JavaThrowable demo_world))
               eq_refl).
Defined.

Lemma art_check_put_array_element_from_code_witness :
  GetComponentType (GetClass (StringArray, 2%nat)) = Some JavaString /\
  IsAssignableFrom JavaString (GetClass (JavaThrowable, 1%nat)) = false /\
  exists msg w',
    art_check_put_array_element_from_code
      (Some (JavaThrowable, 1%nat)) (Some (StringArray, 2%nat)) demo_world = Returns tt w' /\
    w' <> demo_world /\
    exception_ (self w') = Some (NewException "Ljava/lang/ArrayStoreException;" (Some msg)) /\
    contains (PrettyDescriptor JavaThrowable) msg /\
    contains (PrettyDescriptor StringArray) msg /\
    heap w' = heap demo_world /\ stack_end_ (self w') = stack_end_ (self demo_world).
Proof.
  split; [reflexivity|]. split; [reflexivity|].
  exact (proj2 (proj2 (art_check_put_array_element_from_code_spec
                         (Some (JavaThrowable, 1%nat)) (Some (StringArray, 2%nat))
                         demo_world)
                      (JavaThrowable, 1%nat) (StringArray, 2%nat) JavaString
                      eq_refl eq_refl eq_refl)
               eq_refl).
Defined.

Lemma art_throw_stack_overflow_from_code_witness :
  stack_end_ (self demo_world) = default_stack_end_ (self demo_world) /\
  exists msg w',
    art_throw_stack_overflow_from_code demo_world = Returns tt w' /\
    stack_end_ (self w') = stack_end_ (self demo_world) /\
    exception_ (self w') =
      Some (NewException "Ljava/lang/StackOverflowError;" (Some msg)).
Proof.
  split; [reflexivity|].
  destruct (art_throw_stack_overflow_from_code_spec demo_world)
    as (msg & w' & Hrun & _ & _ & _ & _ & Horig & Hexc).
  exists msg, w'. split; [exact Hrun|]. split; [exact (Horig eq_refl) | exact Hexc].
Defined.

Lemma art_decode_jobject_in_thread_witness :
  let pending := self (demo_pending (ThrownObject (JavaThrowable, 1%nat))) in
  IsExceptionPending pending = true /\
  art_decode_jobject_in_thread pending 7%nat demo_world = Returns None demo_world.
Proof.
  intros pending. split; [reflexivity|].
  exact (proj1 (art_decode_jobject_in_thread_spec pending 7%nat demo_world) eq_refl).
Defined.

End DemoFacts.

(** ** The concrete runtime: the further properties at work *)

Module DemoMoreFacts.
Import Demo DemoMore.

Lemma twice_table_sorted : names_sorted (map fst twice_table).
Proof. repeat constructor; vm_compute; discriminate. Qed.

Lemma demo_entry_table_nonnull : Forall (fun entry => snd entry <> NULL) demo_entry_table.
Proof. repeat constructor; discriminate. Qed.

Lemma FindMethodHelper_null_result_witness :
  (exists w',
      FindMethodHelper 2 None 0%nat true kVirtual demo_world = Returns None w' /\
      IsExceptionPending (self w') = true) /\
  FindMethodHelper (RS := silent_support) 1 None 0%nat true kVirtual demo_world
    = Aborts "Check failed: Thread::Current()->IsExceptionPending()".
Proof.
  split.
  - eexists. split; [vm_compute; reflexivity|].
    exact (proj2 (proj2 (proj1 (FindMethodHelper_null_result
                                  2 None 0%nat true kVirtual demo_world)
                               _ eq_refl))).
  - exact (proj2 (FindMethodHelper_null_result (RS := silent_support)
                    1 None 0%nat true kVirtual demo_world)
                 demo_world eq_refl eq_refl eq_refl).
Defined.

Lemma art_find_catch_block_from_code_range_witness :
  let w := demo_pending (NewException "Ljava/lang/ArithmeticException;" None) in
  GetException (self w) = Some (NewException "Ljava/lang/ArithmeticException;" None) /\
  Z.of_nat (length (CatchHandlerIterator 1%nat 0)) < 2 ^ 31 /\
  exists r w',
    art_find_catch_block_from_code 1%nat 0 w = Returns r w' /\
    -1 <= r < Z.of_nat (length (CatchHandlerIterator 1%nat 0)) /\
    (r <> -1 ->
     exists x,
       CatchHandlerIterator 1%nat 0 !! Z.to_nat r = Some x /\
       handler_matches (heap w) 1%nat JavaArithmeticException x = true).
Proof.
  intros w. split; [reflexivity|]. split; [reflexivity|].
  apply (art_find_catch_block_from_code_range (OM := demo_model) 1%nat 0 w
           (NewException "Ljava/lang/ArithmeticException;" None));
    reflexivity.
Defined.

Lemma art_find_catch_block_from_code_effects_witness :
  let w := demo_pending (NewException "Ljava/lang/ArithmeticException;" None) in
  art_find_catch_block_from_code 0%nat 0 demo_world = Faults /\
  exists r w' es,
    art_find_catch_block_from_code 1%nat 0 w = Returns r w' /\
    self w' = self w /\ heap w' = heap w /\
    resolved_fields_ w' = resolved_fields_ w /\
    resolved_methods_ w' = resolved_methods_ w /\
    events w' = events w ++ es /\
    Forall is_warning es /\
    (length es <= length (CatchHandlerIterator 1%nat 0))%nat.
Proof.
  intros w. split.
  - exact (proj1 (art_find_catch_block_from_code_effects (OM := demo_model)
                    0%nat 0 demo_world) eq_refl).
  - exact (proj2 (art_find_catch_block_from_code_effects (OM := demo_model) 1%nat 0 w)
                 (NewException "Ljava/lang/ArithmeticException;" None) eq_refl).
Defined.

Lemma art_find_catch_block_from_code_prefix_witness :
  let found := @emit pc_model
                 (EvLogWarning "Unresolved exception class when finding catch block: 9")
                 pc_world in
  @CatchHandlerIterator pc_model 0%nat 1 = @CatchHandlerIterator pc_model 0%nat 0 ++ [7] /\
  @art_find_catch_block_from_code pc_model 0%nat 0 pc_world = Returns 1 found /\
  1 <> -1 /\
  @art_find_catch_block_from_code pc_model 0%nat 1 pc_world = Returns 1 found.
Proof.
  intros found.
  assert (Hextends : @CatchHandlerIterator pc_model 0%nat 1
                     = @CatchHandlerIterator pc_model 0%nat 0 ++ [7]) by reflexivity.
  assert (Hrun : @art_find_catch_block_from_code pc_model 0%nat 0 pc_world
                 = Returns 1 found) by reflexivity.
  assert (Hfound : 1 <> -1) by discriminate.
  split; [exact Hextends|]. split; [exact Hrun|]. split; [exact Hfound|].
  exact (art_find_catch_block_from_code_prefix (OM := pc_model)
           0%nat 0 1 [7] pc_world found 1 Hextends Hrun Hfound).
Defined.

Lemma art_find_catch_block_from_code_catch_all_witness :
  let w := demo_pending (NewException "Ljava/lang/ArithmeticException;" None) in
  GetException (self w) = Some (NewException "Ljava/lang/ArithmeticException;" None) /\
  Z.of_nat (length (CatchHandlerIterator 0%nat 0)) < 2 ^ 31 /\
  CatchHandlerIterator 0%nat 0 !! 1%nat = Some kDexNoIndex16 /\
  exists r w', art_find_catch_block_from_code 0%nat 0 w = Returns r w' /\ 0 <= r <= 1.
Proof.
  intros w. split; [reflexivity|]. split; [reflexivity|]. split; [reflexivity|].
  apply (art_find_catch_block_from_code_catch_all (OM := demo_model) 0%nat 0 w
           (NewException "Ljava/lang/ArithmeticException;" None) 1);
    reflexivity.
Defined.

Lemma throw_then_find_catch_block_witness :
  Z.of_nat (length (CatchHandlerIterator 1%nat 0)) < 2 ^ 31 /\
  exists r w',
    bind (art_throw_exception_from_code (Some (JavaArithmeticException, 1%nat)))
         (fun _ => art_find_catch_block_from_code 1%nat 0) demo_world
      = Returns r w' /\
    -1 <= r < Z.of_nat (length (CatchHandlerIterator 1%nat 0)) /\
    GetException (self w') = Some (ThrownObject (JavaArithmeticException, 1%nat)).
Proof.
  split; [reflexivity|].
  apply (throw_then_find_catch_block (OM := demo_model)
           (Some (JavaArithmeticException, 1%nat)) 1%nat 0 demo_world).
  reflexivity.
Defined.

Lemma art_check_put_array_element_agrees_with_query_witness :
  GetComponentType (GetClass (ObjectArray, 2%nat)) = Some JavaObject /\
  exists w',
    art_check_put_array_element_from_code
      (Some (JavaString, 1%nat)) (Some (ObjectArray, 2%nat)) demo_world = Returns tt w' /\
    (w' = demo_world <->
     art_is_assignable_from_code JavaObject (GetClass (JavaString, 1%nat)) demo_world
       = Returns 1 demo_world).
Proof.
  split; [reflexivity|].
  exact (art_check_put_array_element_agrees_with_query (OM := demo_model)
           (JavaString, 1%nat) (ObjectArray, 2%nat) JavaObject demo_world eq_refl).
Defined.

Lemma art_check_put_array_element_faults_witness :
  GetComponentType (GetClass (JavaString, 3%nat)) = None /\
  art_check_put_array_element_from_code
    (Some (JavaString, 1%nat)) (Some (JavaString, 3%nat)) demo_world = Faults.
Proof.
  split; [reflexivity|].
  exact (proj2 (art_check_put_array_element_faults (OM := demo_model)
                  (JavaString, 1%nat) demo_world)
               (JavaString, 3%nat) eq_refl).
Defined.

Lemma CStringComparator_strict_total_order_witness :
  CStringComparator "__adddf3" "__divdi3" = true /\
  CStringComparator "__divdi3" "memcpy" = true /\
  CStringComparator "__divdi3" "__adddf3" = false /\
  CStringComparator "__adddf3" "memcpy" = true.
Proof.
  pose proof (CStringComparator_strict_total_order "__adddf3" "__divdi3" "memcpy")
    as (_ & Hasym & Htrans & _).
  split; [reflexivity|]. split; [reflexivity|].
  split; [exact (Hasym eq_refl) | exact (Htrans eq_refl eq_refl)].
Defined.

Lemma lower_bound_logarithmic_witness :
  (Nat.log2 (length (map fst demo_helper_table)) < 3)%nat /\
  lower_bound_within (map fst demo_helper_table) "__muldi3"%string CStringComparator
                     3 0 (length (map fst demo_helper_table))
  = Some (lower_bound (map fst demo_helper_table) "__muldi3"%string CStringComparator).
Proof.
  assert (Hbudget : (Nat.log2 (length (map fst demo_helper_table)) < 3)%nat).
  { vm_compute. lia. }
  split; [exact Hbudget|].
  exact (lower_bound_logarithmic (map fst demo_helper_table) "__muldi3"%string
           CStringComparator 3 Hbudget).
Defined.

(** Three iterations find the place of a name among four; two do not
    always. *)
Example lower_bound_within_budget :
  lower_bound_within (map fst demo_helper_table) "__a"%string CStringComparator 3 0 4
    = Some 0%nat /\
  lower_bound_within (map fst demo_helper_table) "__a"%string CStringComparator 2 0 4
    = None.
Proof. split; reflexivity. Qed.

Lemma art_find_runtime_support_func_sound_witness :
  art_find_runtime_support_func demo_helper_table demo_entry_table 0
    "art_lock_object_from_code" demo_world = Returns 8196 demo_world /\
  demo_world = demo_world /\
  (In ("art_lock_object_from_code"%string, 8196) demo_helper_table \/
   In ("art_lock_object_from_code"%string, 8196) demo_entry_table).
Proof.
  assert (Hrun : art_find_runtime_support_func demo_helper_table demo_entry_table 0
                   "art_lock_object_from_code" demo_world = Returns 8196 demo_world)
    by reflexivity.
  split; [exact Hrun|].
  exact (art_find_runtime_support_func_sound (OM := demo_model)
           demo_helper_table demo_entry_table 0 "art_lock_object_from_code"
           demo_world demo_world 8196 Hrun).
Defined.

Lemma art_find_runtime_support_func_never_null_witness :
  Forall (fun entry => snd entry <> NULL) demo_entry_table /\
  ((exists addr,
       art_find_runtime_support_func demo_helper_table demo_entry_table 0
         "art_nowhere" demo_world = Returns addr demo_world /\
       addr <> NULL) \/
   art_find_runtime_support_func demo_helper_table demo_entry_table 0
     "art_nowhere" demo_world
   = Aborts ("Error: Can't find symbol " +:+ "art_nowhere")).
Proof.
  split; [exact demo_entry_table_nonnull|].
  exact (art_find_runtime_support_func_never_null (OM := demo_model)
           demo_helper_table demo_entry_table 0 "art_nowhere" demo_world
           demo_entry_table_nonnull).
Defined.

Lemma art_find_compiler_runtime_func_first_witness :
  names_sorted (map fst twice_table) /\
  twice_table !! 2%nat = Some ("__divdi3"%string, 4200) /\
  exists p addr,
    (p <= 2)%nat /\ twice_table !! p = Some ("__divdi3"%string, addr) /\
    (forall j n x, (j < p)%nat -> twice_table !! j = Some (n, x) -> n <> "__divdi3"%string) /\
    art_find_compiler_runtime_func twice_table "__divdi3" = addr.
Proof.
  split; [exact twice_table_sorted|]. split; [reflexivity|].
  exact (art_find_compiler_runtime_func_first twice_table "__divdi3" 2 4200
           twice_table_sorted eq_refl).
Defined.

(** The first of the two registrations is the one that answers. *)
Example twice_table_first : art_find_compiler_runtime_func twice_table "__divdi3" = 4100.
Proof. reflexivity. Qed.

End DemoMoreFacts.
